(** * Bokeh charts: the Builder base class, LineBuilder and StepBuilder

    A shallow embedding of [bokeh/charts/_builder.py],
    [bokeh/charts/builder/line_builder.py] and
    [bokeh/charts/builder/step_builder.py].

    Python objects are records, [self] is threaded explicitly, a raised
    exception is [None] in the option monad, a [dict] is a [gmap], a list is
    a [list].  Numbers are exact rationals ([Q]): the rounding of binary
    floating point is not part of the model, so [0.1] is the rational 1/10.

    The collaborators that live outside these three files (DataAdapter,
    Chart, the helpers of [charts/utils.py], HasProps) are either taken as a
    parameter (the class [DataAdapter]) or modelled from the specification;
    the latter definitions say so in their comment. *)

From stdpp Require Import gmap strings list fin_maps.
From Stdlib Require Import QArith.
Close Scope Q_scope.

(** ** Python values that travel through keyword arguments *)

Inductive Range : Type :=
| DataRange1d (sources : list (gmap string (list Q) * list string))
| Range1d (start end_ : Q).

Inductive PyVal : Type :=
| PyNone
| PyBool (b : bool)
| PyStr (s : string)
| PySeq (xs : list Q)
| PyStrs (ss : list string)
| PyRange (r : Range).

(** [isinstance(v, string_types)] together with [col == v]. *)
Definition is_string_eq (v : PyVal) (col : string) : bool :=
  match v with
  | PyStr s => bool_decide (col = s)
  | _ => false
  end.

Definition as_range (v : option PyVal) : option Range :=
  match v with
  | Some (PyRange r) => Some r
  | _ => None
  end.

Definition as_any (v : option PyVal) : PyVal :=
  match v with
  | Some x => x
  | None => PyNone
  end.

(** ** Python built-ins on sequences of numbers *)

Module Py.

(** [a < b] on numbers. *)
Definition ltb (a b : Q) : bool := negb (Qle_bool b a).

(** [max(l)]: the first of the largest items; raises on an empty
    sequence. *)
Definition max (l : list Q) : option Q :=
  match l with
  | [] => None
  | x :: t => Some (fold_left (fun m y => if ltb m y then y else m) t x)
  end.

(** [min(l)]: the first of the smallest items; raises on an empty
    sequence. *)
Definition min (l : list Q) : option Q :=
  match l with
  | [] => None
  | x :: t => Some (fold_left (fun m y => if ltb y m then y else m) t x)
  end.

(** [l[:-1]] *)
Definition init {A} (l : list A) : list A := take (length l - 1) l.

(** [l[1:]] *)
Definition tail {A} (l : list A) : list A := drop 1 l.

End Py.

(** ** Models, glyphs and renderers *)

(** [ColumnDataSource(data)] keeps the mapping it was built from. *)
Record ColumnDataSource : Type := { cds_data : gmap string (list Q) }.

(** [source.columns(name)]: a reference to named columns of a source. *)
Definition columns (sc : ColumnDataSource) (name : string)
  : gmap string (list Q) * list string := (cds_data sc, [name]).

Inductive Glyph : Type :=
| LineGlyph (x y line_color : string)
| Segment (x0 y0 x1 y1 line_color : string).

Record GlyphRenderer : Type :=
  { data_source : option ColumnDataSource; glyph : Glyph }.

Definition Legend : Type := (string * list GlyphRenderer)%type.

Definition DEFAULT_PALETTE : list string :=
  ["#f22c40"; "#5ab738"; "#407ee7"; "#df5320"; "#00ad9c"; "#c33ff3"].

(** Modelled from the spec: [cycle_colors] of [charts/utils.py] is not among
    the sources; the specification calls it a deterministically cycled
    colour, one per element of the chunk, so element [i] of the result is
    the palette entry [i mod len(palette)]. *)
Definition palette_color (i : nat) : string :=
  default "" (DEFAULT_PALETTE !! (i mod length DEFAULT_PALETTE)).

Definition cycle_colors {A} (chunk : list A) : list string :=
  palette_color <$> seq 0 (length chunk).

(** Modelled from the spec: [chunk] of [charts/utils.py] is not among the
    sources; the specification says the attributes are grouped two at a
    time in creation order, so [chunk l n] cuts [l] into successive pieces
    of [n] items, the last one possibly shorter.  The first argument is the
    number of pieces still allowed, [length l] is always enough. *)
Fixpoint chunk_fuel {A} (fuel : nat) (l : list A) (n : nat) : list (list A) :=
  match fuel, l with
  | _, [] => []
  | O, _ => []
  | S fuel', _ => take n l :: chunk_fuel fuel' (drop n l) n
  end.

Definition chunk {A} (l : list A) (n : nat) : list (list A) :=
  chunk_fuel (length l) l n.

(** ** The DataAdapter contract

    [DataAdapter] is a collaborator whose code is outside the three source
    files.  The builders use four things of it; they are the members of this
    class.  [V] is the type of what [self._values] holds: the caller's raw
    table before [prepare_values], the adapted table after. *)
Class DataAdapter (V : Type) : Type := {
  (** the Python value [[]], the default of [Builder.__init__] *)
  empty_list : V;
  (** [values.keys()]: the series names, in iteration order *)
  keys : V -> list string;
  (** [values[col][x]]; [None] is a lookup error *)
  getitem : V -> string -> Q -> option Q;
  (** [DataAdapter.get_index_and_data(values, index)]; [None] is an error *)
  get_index_and_data : V -> PyVal -> option (list Q * V)
}.

Section Charts.

Context {V : Type} `{DA : DataAdapter V}.

(** ** class Builder(HasProps)

    The four declared properties come first ([palette] is spelled
    [alette] in the class body), then the private attributes set by
    [__init__], then the attributes that exist only after a later method
    has assigned them ([None] before that). *)
Record Builder : Type := {
  x_range : option Range;
  y_range : option Range;
  alette : PyVal;
  index : PyVal;
  _values : V;
  _legends : list Legend;
  _data : gmap string (list Q);
  _groups : list string;
  _attr : list string;
  _values_index : option (list Q);
  _source : option ColumnDataSource
}.

Definition with_ranges (xr yr : option Range) (self : Builder) : Builder :=
  {| x_range := xr; y_range := yr; alette := alette self;
     index := index self; _values := _values self;
     _legends := _legends self; _data := _data self;
     _groups := _groups self; _attr := _attr self;
     _values_index := _values_index self; _source := _source self |}.

Definition with_values (xs : option (list Q)) (v : V) (self : Builder)
  : Builder :=
  {| x_range := x_range self; y_range := y_range self;
     alette := alette self; index := index self; _values := v;
     _legends := _legends self; _data := _data self;
     _groups := _groups self; _attr := _attr self;
     _values_index := xs; _source := _source self |}.

Definition with_legends (l : list Legend) (self : Builder) : Builder :=
  {| x_range := x_range self; y_range := y_range self;
     alette := alette self; index := index self;
     _values := _values self; _legends := l; _data := _data self;
     _groups := _groups self; _attr := _attr self;
     _values_index := _values_index self; _source := _source self |}.

Definition with_data (d : gmap string (list Q)) (a : list string)
           (self : Builder) : Builder :=
  {| x_range := x_range self; y_range := y_range self;
     alette := alette self; index := index self;
     _values := _values self; _legends := _legends self; _data := d;
     _groups := _groups self; _attr := a;
     _values_index := _values_index self; _source := _source self |}.

Definition with_groups (g : list string) (self : Builder) : Builder :=
  {| x_range := x_range self; y_range := y_range self;
     alette := alette self; index := index self;
     _values := _values self; _legends := _legends self;
     _data := _data self; _groups := g; _attr := _attr self;
     _values_index := _values_index self; _source := _source self |}.

Definition with_source (s : option ColumnDataSource) (self : Builder)
  : Builder :=
  {| x_range := x_range self; y_range := y_range self;
     alette := alette self; index := index self;
     _values := _values self; _legends := _legends self;
     _data := _data self; _groups := _groups self; _attr := _attr self;
     _values_index := _values_index self; _source := s |}.

(** [Builder.__init__(self, values=None, **kws)].  [HasProps.__init__]
    assigns each keyword to the property of that name; the properties a
    builder declares are [x_range], [y_range], [alette] and [index]. *)
Definition Builder_init (values : option V) (kws : gmap string PyVal)
  : Builder :=
  let values := match values with None => empty_list | Some v => v end in
  {| x_range := as_range (kws !! "x_range");
     y_range := as_range (kws !! "y_range");
     alette := as_any (kws !! "alette");
     index := as_any (kws !! "index");
     _values := values;
     _legends := [];
     _data := ∅;
     _groups := [];
     _attr := [];
     _values_index := None;
     _source := None |}.

(** [Builder.prepare_values] for a builder that has an [index] attribute;
    both concrete builders declare one. *)
Definition prepare_values (self : Builder) : option Builder :=
  '(xs, vs) ← get_index_and_data (_values self) (index self);
  Some (with_values (Some xs) vs self).

(** [Builder._set_and_get(self, data, prefix, attr, val, content)] on the
    two containers it is handed. *)
Definition _set_and_get (data : gmap string (list Q)) (prefix : string)
           (attr : list string) (val : string) (content : list Q)
  : gmap string (list Q) * list string :=
  (<[prefix +:+ val := content]> data, attr ++ [prefix +:+ val]).

(** [Builder.set_and_get(self, prefix, val, content)] *)
Definition set_and_get (prefix val : string) (content : list Q)
           (self : Builder) : Builder :=
  let '(d, a) := _set_and_get (_data self) prefix (_attr self) val content in
  with_data d a self.

(** ** The chart accumulator *)

(** Modelled from the spec: [Chart] of [charts/_chart.py] is not among the
    sources.  The specification gives it [add_renderers(builder,
    renderer_sequence)] and [add_legend(legend_entries)], both purely
    additive, and the slots [x_range] and [y_range], null when unset.
    [chart_kws] are the keywords it was constructed with. *)
Record Chart : Type := {
  chart_kws : gmap string PyVal;
  chart_renderers : list GlyphRenderer;
  chart_x_range : option Range;
  chart_y_range : option Range;
  chart_legends : list Legend
}.

(** Modelled from the spec: a chart as its constructor leaves it, nothing
    added and both range slots unset. *)
Definition Chart_init (kws : gmap string PyVal) : Chart :=
  {| chart_kws := kws; chart_renderers := []; chart_x_range := None;
     chart_y_range := None; chart_legends := [] |}.

(** Modelled from the spec: [chart.add_renderers(builder, renderers)]
    consumes the sequence in full and keeps every renderer, after those it
    already has. *)
Definition add_renderers (renderers : list GlyphRenderer) (chart : Chart)
  : Chart :=
  {| chart_kws := chart_kws chart;
     chart_renderers := chart_renderers chart ++ renderers;
     chart_x_range := chart_x_range chart;
     chart_y_range := chart_y_range chart;
     chart_legends := chart_legends chart |}.

(** Modelled from the spec: [chart.add_legend(legends)] keeps every entry,
    after those it already has. *)
Definition add_legend (legends : list Legend) (chart : Chart) : Chart :=
  {| chart_kws := chart_kws chart;
     chart_renderers := chart_renderers chart;
     chart_x_range := chart_x_range chart;
     chart_y_range := chart_y_range chart;
     chart_legends := chart_legends chart ++ legends |}.

(** [chart.x_range = r] *)
Definition set_chart_x_range (r : option Range) (chart : Chart) : Chart :=
  {| chart_kws := chart_kws chart;
     chart_renderers := chart_renderers chart;
     chart_x_range := r;
     chart_y_range := chart_y_range chart;
     chart_legends := chart_legends chart |}.

(** [chart.y_range = r] *)
Definition set_chart_y_range (r : option Range) (chart : Chart) : Chart :=
  {| chart_kws := chart_kws chart;
     chart_renderers := chart_renderers chart;
     chart_x_range := chart_x_range chart;
     chart_y_range := r;
     chart_legends := chart_legends chart |}.

(** [not r] for a range slot: an unset slot is falsy, a range object is
    truthy. *)
Definition py_not (r : option Range) : bool :=
  match r with None => true | Some _ => false end.

(** ** A builder class: its declared property names, its constructor and
    the three hooks a subclass overrides.  [draw] is a generator in the
    source; the caller consumes it in full, and the function here is the
    effect of that full consumption: the renderers yielded, in order, and
    the builder as the generator's body left it. *)
Record BuilderClass : Type := {
  properties : gset string;
  new : option V -> gmap string PyVal -> Builder;
  get_data : Builder -> option Builder;
  get_source : Builder -> option Builder;
  draw : Builder -> option (list GlyphRenderer * Builder)
}.

(** [Builder.create(self, chart)] *)
Definition create (cls : BuilderClass) (self : Builder) (chart : Chart)
  : option (Builder * Chart) :=
  self ← prepare_values self;
  self ← get_data cls self;
  self ← get_source cls self;
  '(renderers, self) ← draw cls self;
  let chart := add_renderers renderers chart in
  let chart :=
    if py_not (chart_x_range chart)
    then set_chart_x_range (x_range self) chart else chart in
  let chart :=
    if py_not (chart_y_range chart)
    then set_chart_y_range (y_range self) chart else chart in
  let legends := _legends self in
  let chart := add_legend legends chart in
  Some (self, chart).

(** The two dictionary comprehensions of [create_and_build]. *)
Definition builder_kws (builder_props : gset string)
           (kws : gmap string PyVal) : gmap string PyVal :=
  filter (fun kv => kv.1 ∈ builder_props) kws.

Definition chart_kws_of (builder_props : gset string)
           (kws : gmap string PyVal) : gmap string PyVal :=
  filter (fun kv => kv.1 ∉ builder_props) kws.

(** Modelled from the spec: [Chart.add_builder] is not among the sources;
    the specification's control flow is factory, then builder, then
    [create()], so adding a builder runs its [create] on the chart. *)
Definition add_builder (cls : BuilderClass) (builder : Builder)
           (chart : Chart) : option (Builder * Chart) :=
  create cls builder chart.

(** [create_and_build(builder_class, values, **kws)].  The builder is
    returned next to the chart so that its final state can be observed. *)
Definition create_and_build (builder_class : BuilderClass) (values : V)
           (kws : gmap string PyVal) : option (Builder * Chart) :=
  let builder_props := properties builder_class in
  let builder := new builder_class (Some values)
                     (builder_kws builder_props kws) in
  let chart := Chart_init (chart_kws_of builder_props kws) in
  add_builder builder_class builder chart.

(** ** Range computation shared by the two [get_source] methods *)

(** [max(max(self._data[i]) for i in y_names)] *)
Definition max_of_columns (data : gmap string (list Q))
           (y_names : list string) : option Q :=
  ms ← mapM (fun i => col ← data !! i; Py.max col) y_names;
  Py.max ms.

(** [min(min(self._data[i]) for i in y_names)] *)
Definition min_of_columns (data : gmap string (list Q))
           (y_names : list string) : option Q :=
  ms ← mapM (fun i => col ← data !! i; Py.min col) y_names;
  Py.min ms.

(** [Range1d(start=starty - 0.1 * (endy - starty),
             end=endy + 0.1 * (endy - starty))], with the source's
    expression evaluated in exact rational arithmetic.  The source
    evaluates it in binary floating point, whose rounding is not
    modelled: the properties below say which two extremes the
    expression is applied to, and the digits of a padded bound are those
    of the rational value. *)
Definition padded_range (starty endy : Q) : Range :=
  Range1d (starty - 0.1 * (endy - starty))%Q
          (endy + 0.1 * (endy - starty))%Q.

(** ** class LineBuilder(Builder) *)
(** [LineBuilder.__init__(self, values, index=None, legend=False,
    palette=None, **kws)]: the three named parameters take their
    keywords out of [kws], and only the rest goes to
    [Builder.__init__]. *)
Definition LineBuilder_init (values : option V) (kws : gmap string PyVal)
  : Builder :=
  let kws := delete "palette" (delete "legend" (delete "index" kws)) in
  with_source None (Builder_init values kws).

Fixpoint LineBuilder_get_data_loop (cols : list string) (xs : list Q)
         (self : Builder) : option Builder :=
  match cols with
  | [] => Some self
  | col :: rest =>
      if is_string_eq (index self) col
      then LineBuilder_get_data_loop rest xs self
      else
        let self := with_groups (_groups self ++ [col]) self in
        values ← mapM (fun x => getitem (_values self) col x) xs;
        LineBuilder_get_data_loop rest xs (set_and_get "y_" col values self)
  end.

Definition LineBuilder_get_data (self : Builder) : option Builder :=
  let self := with_data ∅ [] self in
  xs ← _values_index self;
  let self := set_and_get "x" "" xs self in
  LineBuilder_get_data_loop (keys (_values self)) xs self.

Definition LineBuilder_get_source (self : Builder) : option Builder :=
  let sc := {| cds_data := _data self |} in
  let self := with_source (Some sc) self in
  let self := with_ranges (Some (DataRange1d [columns sc "x"]))
                          (y_range self) self in
  let y_names := drop 1 (_attr self) in
  endy ← max_of_columns (_data self) y_names;
  starty ← min_of_columns (_data self) y_names;
  Some (with_ranges (x_range self)
                    (Some (padded_range starty endy)) self).

(** The body of the [for i, duplet in enumerate(..., start=1)] loop. *)
Fixpoint LineBuilder_draw_loop (colors : list string) (i : nat)
         (duplets : list string) (self : Builder)
  : option (list GlyphRenderer * Builder) :=
  match duplets with
  | [] => Some ([], self)
  | duplet :: rest =>
      c ← colors !! (i - 1);
      let glyph := LineGlyph "x" duplet c in
      let renderer := {| data_source := _source self; glyph := glyph |} in
      g ← _groups self !! (i - 1);
      let self := with_legends (_legends self ++ [(g, [renderer])]) self in
      '(rs, self) ← LineBuilder_draw_loop colors (S i) rest self;
      Some (renderer :: rs, self)
  end.

Definition LineBuilder_draw (self : Builder)
  : option (list GlyphRenderer * Builder) :=
  let colors := cycle_colors (_attr self) in
  LineBuilder_draw_loop colors 1 (drop 1 (_attr self)) self.

(** ** class StepBuilder(Builder) *)

(** [StepBuilder.__init__(self, values, **kws)]: every keyword goes on to
    [Builder.__init__]. *)
Definition StepBuilder_init (values : option V) (kws : gmap string PyVal)
  : Builder :=
  Builder_init values kws.

Fixpoint StepBuilder_get_data_loop (cols : list string) (xs : list Q)
         (self : Builder) : option Builder :=
  match cols with
  | [] => Some self
  | col :: rest =>
      if is_string_eq (index self) col
      then StepBuilder_get_data_loop rest xs self
      else
        let self := with_groups (_groups self ++ [col]) self in
        values ← mapM (fun x => getitem (_values self) col x) xs;
        let self := set_and_get "y1_" col (Py.init values) self in
        let self := set_and_get "y2_" col (Py.tail values) self in
        StepBuilder_get_data_loop rest xs self
  end.

Definition StepBuilder_get_data (self : Builder) : option Builder :=
  let self := with_data ∅ [] self in
  let self := with_groups [] self in
  xs ← _values_index self;
  let self := set_and_get "x" "" (Py.init xs) self in
  let self := set_and_get "x2" "" (Py.tail xs) self in
  StepBuilder_get_data_loop (keys (_values self)) xs self.

Definition StepBuilder_get_source (self : Builder) : option Builder :=
  let sc := {| cds_data := _data self |} in
  let self := with_source (Some sc) self in
  let self := with_ranges
                (Some (DataRange1d [columns sc "x"; columns sc "x2"]))
                (y_range self) self in
  let y_names := drop 1 (_attr self) in
  endy ← max_of_columns (_data self) y_names;
  starty ← min_of_columns (_data self) y_names;
  Some (with_ranges (x_range self)
                    (Some (padded_range starty endy)) self).

(** The body of the [for i, duplet in enumerate(tuples)] loop: two
    renderers are yielded per duplet, the legend entry is recorded between
    them and holds the second one. *)
Fixpoint StepBuilder_draw_loop (colors : list string) (i : nat)
         (tuples : list (list string)) (self : Builder)
  : option (list GlyphRenderer * Builder) :=
  match tuples with
  | [] => Some ([], self)
  | duplet :: rest =>
      d0 ← duplet !! 0;
      d1 ← duplet !! 1;
      c ← colors !! i;
      let glyph := Segment "x2" d0 "x2" d1 c in
      let horizontal := {| data_source := _source self; glyph := glyph |} in
      let glyph := Segment "x" d0 "x2" d0 c in
      let renderer := {| data_source := _source self; glyph := glyph |} in
      g ← _groups self !! i;
      let self := with_legends (_legends self ++ [(g, [renderer])]) self in
      '(rs, self) ← StepBuilder_draw_loop colors (S i) rest self;
      Some (horizontal :: renderer :: rs, self)
  end.

Definition StepBuilder_draw (self : Builder)
  : option (list GlyphRenderer * Builder) :=
  let tuples := chunk (drop 2 (_attr self)) 2 in
  let colors := cycle_colors tuples in
  StepBuilder_draw_loop colors 0 tuples self.

(** ** The two classes and the two entry points *)

(** The property names declared in the class bodies: [x_range], [y_range]
    and [alette] by [Builder], [index] by each subclass. *)
Definition declared_properties : gset string :=
  {[ "x_range"; "y_range"; "alette"; "index" ]}.

Definition LineBuilder : BuilderClass :=
  {| properties := declared_properties;
     new := LineBuilder_init;
     get_data := LineBuilder_get_data;
     get_source := LineBuilder_get_source;
     draw := LineBuilder_draw |}.

Definition StepBuilder : BuilderClass :=
  {| properties := declared_properties;
     new := StepBuilder_init;
     get_data := StepBuilder_get_data;
     get_source := StepBuilder_get_source;
     draw := StepBuilder_draw |}.

(** [Line(values, index=None, **kws)] *)
Definition Line (values : V) (index : PyVal) (kws : gmap string PyVal)
  : option (Builder * Chart) :=
  create_and_build LineBuilder values (<["index" := index]> kws).

(** [Step(values, index=None, **kws)] *)
Definition Step (values : V) (index : PyVal) (kws : gmap string PyVal)
  : option (Builder * Chart) :=
  create_and_build StepBuilder values (<["index" := index]> kws).

(** The series a builder draws: every key of the adapted values except the
    one named by a string index (the test of the [for col in ...] loops). *)
Definition series (self : Builder) : list string :=
  filter (fun col => is_string_eq (index self) col = false)
         (keys (_values self)).

(** [self.index = v], an assignment to the declared property. *)
Definition with_index (v : PyVal) (self : Builder) : Builder :=
  {| x_range := x_range self; y_range := y_range self;
     alette := alette self; index := v; _values := _values self;
     _legends := _legends self; _data := _data self;
     _groups := _groups self; _attr := _attr self;
     _values_index := _values_index self; _source := _source self |}.

(** The builder as [prepare_values] leaves it; the builder itself where
    [prepare_values] raises. *)
Definition prepared (self : Builder) : Builder :=
  from_option id self (prepare_values self).

(** The builder and the chart as [create] leaves them; the arguments
    themselves where [create] raises. *)
Definition created (cls : BuilderClass) (self : Builder) (chart : Chart)
  : Builder :=
  from_option fst self (create cls self chart).

Definition charted (cls : BuilderClass) (self : Builder) (chart : Chart)
  : Chart :=
  from_option snd chart (create cls self chart).

(** The builder after [prepare_values] and [get_data], and after
    [get_source] as well; the previous stage where a stage raises. *)
Definition got_data (cls : BuilderClass) (self : Builder) : Builder :=
  from_option id (prepared self) (get_data cls (prepared self)).

Definition got_source (cls : BuilderClass) (self : Builder) : Builder :=
  from_option id (got_data cls self) (get_source cls (got_data cls self)).

(** Two builders hold the same input when they agree on the index, on the
    adapted values and on the index sequence. *)
Definition same_input (a b : Builder) : Prop :=
  index a = index b ∧ _values a = _values b ∧
  _values_index a = _values_index b.

(** ** Closed forms used in statements *)

(** The values [[values[col][x] for x in xs]] of one series; the empty list
    stands in where a lookup fails. *)
Definition column_of (values : V) (xs : list Q) (col : string) : list Q :=
  default [] (mapM (fun x => getitem values col x) xs).

(** A series is readable when every lookup of the comprehension succeeds. *)
Definition readable (values : V) (xs : list Q) (col : string) : Prop :=
  is_Some (mapM (fun x => getitem values col x) xs).

(** What the loop of [LineBuilder.get_data] adds to the data for the series
    [cols]. *)
Definition line_columns (values : V) (xs : list Q) (cols : list string)
           (data : gmap string (list Q)) : gmap string (list Q) :=
  foldl (fun d col => <["y_" +:+ col := column_of values xs col]> d)
        data cols.

(** What the loop of [StepBuilder.get_data] adds to the data for the series
    [cols]. *)
Definition step_columns (values : V) (xs : list Q) (cols : list string)
           (data : gmap string (list Q)) : gmap string (list Q) :=
  foldl (fun d col =>
           <["y2_" +:+ col := Py.tail (column_of values xs col)]>
             (<["y1_" +:+ col := Py.init (column_of values xs col)]> d))
        data cols.

End Charts.

Arguments Builder V : clear implicits.
Arguments Chart : clear implicits.
Arguments BuilderClass V : clear implicits.

(** ** A table of named columns *)

(** Modelled from the spec: the DataAdapter is not among the sources.  The
    specification asks of it an enumeration of the series names, column
    access by key and by index, and a function that returns the index
    sequence and the adapted data for raw values and an index specifier: a
    configured index (a column name or a sequence) is extracted and, when it
    names a column, removed from the data series; without one the index is
    positional; an index name that is not a key is a lookup error.  A table
    is the ordered list of its named columns and, once adapted with an
    explicit index, the labels of its rows. *)
Record Table : Type := {
  table_columns : list (string * list Q);
  table_labels : option (list Q)
}.

(** [columns[k]] on an ordered list of named columns. *)
Fixpoint assoc {A} (k : string) (l : list (string * A)) : option A :=
  match l with
  | [] => None
  | (k', v) :: rest => if bool_decide (k = k') then Some v else assoc k rest
  end.

(** The position of the first label equal to [x]. *)
Fixpoint position (x : Q) (labels : list Q) : option nat :=
  match labels with
  | [] => None
  | y :: rest => if Qeq_bool x y then Some 0 else S <$> position x rest
  end.

(** A number used as a list position. *)
Definition as_position (x : Q) : option nat :=
  let x := Qred x in
  if bool_decide (Qden x = 1%positive) && bool_decide (0 ≤ Qnum x)%Z
  then Some (Z.to_nat (Qnum x)) else None.

(** Modelled from the spec: [values[col][x]], column access by key, then
    by row label when the table has labels and by position when it has
    none. *)
Definition table_getitem (t : Table) (col : string) (x : Q) : option Q :=
  c ← assoc col (table_columns t);
  i ← match table_labels t with
      | Some labels => position x labels
      | None => as_position x
      end;
  c !! i.

(** Modelled from the spec: the positional index, [0 .. n-1] for columns of
    [n] rows. *)
Definition positional_index (t : Table) : list Q :=
  match table_columns t with
  | [] => []
  | (_, c) :: _ => (fun i => inject_Z (Z.of_nat i)) <$> seq 0 (length c)
  end.

(** Modelled from the spec: [DataAdapter.get_index_and_data(values,
    index)]. *)
Definition table_get_index_and_data (t : Table) (index : PyVal)
  : option (list Q * Table) :=
  match index with
  | PyStr s =>
      xs ← assoc s (table_columns t);
      Some (xs, {| table_columns :=
                     filter (fun kv => kv.1 ≠ s) (table_columns t);
                   table_labels := Some xs |})
  | PySeq xs =>
      Some (xs, {| table_columns := table_columns t;
                   table_labels := Some xs |})
  | PyNone =>
      Some (positional_index t,
            {| table_columns := table_columns t; table_labels := None |})
  | _ => None
  end.

(** Modelled from the spec: tables as an instance of the adapter contract. *)
#[export] Instance Table_adapter : DataAdapter Table := {
  empty_list := {| table_columns := []; table_labels := None |};
  keys t := (table_columns t).*1;
  getitem := table_getitem;
  get_index_and_data := table_get_index_and_data
}.

(** A raw table, as a caller passes it. *)
Definition table (cols : list (string * list Q)) : Table :=
  {| table_columns := cols; table_labels := None |}.

(** The input of the two example scenarios. *)
Definition example_values : Table :=
  table [("x", [1; 2; 3]); ("a", [1; 4; 9]); ("b", [2; 3; 5])]%Q.

(** A table whose index column runs past its one series. *)
Definition steep_values : Table :=
  table [("x", [1; 2; 30]); ("a", [1; 4; 9])]%Q.

(** Two series and no index column. *)
Definition two_series : Table :=
  table [("a", [1; 4; 9]); ("b", [2; 3; 5])]%Q.

Definition empty_chart : Chart := Chart_init ∅.

(** [b = LineBuilder(example_values); b.index = "x"] *)
Definition line_example : Builder Table :=
  with_index (PyStr "x") (LineBuilder_init (Some example_values) ∅).

(** [StepBuilder(example_values, index="x")] *)
Definition step_example : Builder Table :=
  StepBuilder_init (Some example_values) {["index" := PyStr "x"]}.

(** [StepBuilder(steep_values, index="x")] *)
Definition step_steep : Builder Table :=
  StepBuilder_init (Some steep_values) {["index" := PyStr "x"]}.

(** [LineBuilder(example_values, index="x")] *)
Definition line_constructed : Builder Table :=
  LineBuilder_init (Some example_values) {["index" := PyStr "x"]}.

(** [StepBuilder(two_series, index=[1, 2, 3])] *)
Definition step_labelled : Builder Table :=
  StepBuilder_init (Some two_series) {["index" := PySeq [1; 2; 3]%Q]}.

(** [LineBuilder(two_series)] *)
Definition line_positional : Builder Table :=
  LineBuilder_init (Some two_series) ∅.

(** A table whose index column counts its rows from zero, so that the row
    an index value labels is also the row at that position, and whose one
    series lies below the index values. *)
Definition low_values : Table :=
  table [("x", [0; 1; 2]); ("a", [-8; -4; -1])]%Q.

(** [StepBuilder(low_values, index="x")] *)
Definition step_low : Builder Table :=
  StepBuilder_init (Some low_values) {["index" := PyStr "x"]}.

(** [StepBuilder(two_series, index=[0, 1, 2])]: the index sequence counts
    the rows from zero. *)
Definition step_zero_based : Builder Table :=
  StepBuilder_init (Some two_series) {["index" := PySeq [0; 1; 2]%Q]}.

(** * Properties *)

Section Builder_properties.

Context {V : Type} `{DA : DataAdapter V}.

(** ** The constructor *)

(** C10: constructing a [Builder] with [values] omitted or [None] stores
    the empty list as the raw values, and the legend, data, groups and
    attribute containers all start empty; the constructor is a total
    function, so it does not fail on absent input. *)
Theorem Builder_init_without_values (kws : gmap string PyVal) :
  let self := Builder_init (V := V) None kws in
  _values self = empty_list ∧
  _legends self = [] ∧
  _data self = ∅ ∧
  _groups self = [] ∧
  _attr self = [].
Proof. by cbn. Qed.

(** ** The naming helper *)

Lemma set_and_get_data (prefix val : string) (content : list Q)
      (self : Builder V) :
  _data (set_and_get prefix val content self)
  = <[prefix +:+ val := content]> (_data self).
Proof. reflexivity. Qed.

Lemma set_and_get_attr (prefix val : string) (content : list Q)
      (self : Builder V) :
  _attr (set_and_get prefix val content self)
  = _attr self ++ [prefix +:+ val].
Proof. reflexivity. Qed.

(** C3: [set_and_get(prefix, name, content)] stores [content] under the key
    [prefix+name], leaves every other key alone and appends the key to the
    attribute list.  When the key is already there the map keeps its size
    (the old content is overwritten) while the attribute list still grows,
    so a second call with the same key leaves two equal entries in the
    list and a list that was at least as long as the map is now strictly
    longer. *)
Theorem set_and_get_overwrites_and_appends
        (prefix name : string) (content content' : list Q)
        (self : Builder V) :
  let key := prefix +:+ name in
  let self1 := set_and_get prefix name content self in
  let self2 := set_and_get prefix name content' self1 in
  _data self1 !! key = Some content ∧
  (∀ k, k ≠ key → _data self1 !! k = _data self !! k) ∧
  _attr self1 = _attr self ++ [key] ∧
  (is_Some (_data self !! key) →
   size (_data self1) = size (_data self) ∧
   length (_attr self1) = S (length (_attr self))) ∧
  _data self2 !! key = Some content' ∧
  _attr self2 = _attr self ++ [key; key] ∧
  size (_data self2) = size (_data self1) ∧
  (size (_data self) ≤ length (_attr self) →
   size (_data self2) < length (_attr self2)).
Proof.
  intros key self1 self2. subst self1 self2.
  rewrite !set_and_get_data, !set_and_get_attr. fold key.
  assert (Hsize : ∀ (m : gmap string (list Q)) c,
             is_Some (m !! key) → size (<[key := c]> m) = size m).
  { intros m c [old Hold].
    rewrite <- (insert_delete_id m key old) at 2 by done.
    rewrite <- (insert_delete_eq m), !map_size_insert_None;
      by rewrite ?lookup_delete_eq. }
  repeat split.
  - apply lookup_insert_eq.
  - intros k Hk. by apply lookup_insert_ne.
  - by apply Hsize.
  - rewrite length_app. cbn. lia.
  - apply lookup_insert_eq.
  - by rewrite <- app_assoc.
  - apply Hsize. rewrite lookup_insert_eq. eauto.
  - intros Hle. rewrite Hsize by (rewrite lookup_insert_eq; eauto).
    rewrite !length_app. cbn.
    pose proof (map_size_insert key content (_data self)) as Hins.
    destruct (_data self !! key); cbn in Hins; lia.
Qed.

(** ** [create] and the chart *)

(** C4: when [create(chart)] returns, the chart's [x_range] (and likewise
    its [y_range]) is the builder's only if the chart had none, and is the
    chart's own otherwise; the builder's legend entries are appended to the
    chart's whatever its state; and what comes back is the chart that went
    in: its construction keywords are untouched and its renderers are the
    old ones followed by those the builder drew. *)
Theorem create_first_writer_wins
        (cls : BuilderClass V) (self self' : Builder V)
        (chart chart' : Chart) :
  create cls self chart = Some (self', chart') →
  chart_x_range chart'
  = match chart_x_range chart with
    | Some r => Some r
    | None => x_range self'
    end ∧
  chart_y_range chart'
  = match chart_y_range chart with
    | Some r => Some r
    | None => y_range self'
    end ∧
  chart_legends chart' = chart_legends chart ++ _legends self' ∧
  chart_kws chart' = chart_kws chart ∧
  ∃ renderers, chart_renderers chart' = chart_renderers chart ++ renderers.
Proof.
  unfold create. intros H.
  destruct (prepare_values self) as [s1|]; [cbn in H|done].
  destruct (get_data cls s1) as [s2|]; [cbn in H|done].
  destruct (get_source cls s2) as [s3|]; [cbn in H|done].
  destruct (draw cls s3) as [[rs s4]|]; [cbn in H|done].
  injection H as <- <-.
  destruct chart as [kw rs0 [xr|] [yr|] lg]; cbn; repeat split; eauto.
Qed.

(** ** The factory *)

(** C9: [create_and_build] hands every keyword option to exactly one
    receiver: to the builder's constructor when its name is among the
    declared properties of the builder class, to the chart otherwise; the
    two receivers get nothing else.  For [LineBuilder] and [StepBuilder]
    neither [legend] nor [palette] is a declared property, so by that rule
    both go to the chart. *)
Theorem create_and_build_splits_keywords
        (cls : BuilderClass V) (values : V) (kws : gmap string PyVal) :
  let to_builder := builder_kws (properties cls) kws in
  let to_chart := chart_kws_of (properties cls) kws in
  (create_and_build cls values kws
   = add_builder cls (new cls (Some values) to_builder)
                 (Chart_init to_chart)) ∧
  (∀ k v, kws !! k = Some v →
     ((k ∈ properties cls) ∧ to_builder !! k = Some v ∧ to_chart !! k = None) ∨
     ((k ∉ properties cls) ∧ to_chart !! k = Some v ∧ to_builder !! k = None)) ∧
  (∀ k v, to_builder !! k = Some v → kws !! k = Some v) ∧
  (∀ k v, to_chart !! k = Some v → kws !! k = Some v) ∧
  (∀ k, k = "legend" ∨ k = "palette" →
     chart_kws_of (properties LineBuilder) kws !! k = kws !! k ∧
     builder_kws (properties LineBuilder) kws !! k = None ∧
     chart_kws_of (properties StepBuilder) kws !! k = kws !! k ∧
     builder_kws (properties StepBuilder) kws !! k = None).
Proof.
  intros to_builder to_chart. subst to_builder to_chart.
  unfold builder_kws, chart_kws_of.
  split; [reflexivity|]. split; [|split; [|split]].
  - intros k v Hk. destruct (decide (k ∈ properties cls)) as [Hin|Hout].
    + left. split; [done|]. split.
      * by apply map_lookup_filter_Some.
      * apply map_lookup_filter_None. right. intros ? _ ?. done.
    + right. split; [done|]. split.
      * by apply map_lookup_filter_Some.
      * apply map_lookup_filter_None. right. intros ? _ ?. done.
  - intros k v Hk. by apply map_lookup_filter_Some in Hk as [? _].
  - intros k v Hk. by apply map_lookup_filter_Some in Hk as [? _].
  - assert (Hrule : ∀ k, k ∉ declared_properties →
       filter (λ kv : string * PyVal, kv.1 ∉ declared_properties) kws !! k
       = kws !! k ∧
       filter (λ kv : string * PyVal, kv.1 ∈ declared_properties) kws !! k
       = None).
    { intros k Hk. split.
      - destruct (kws !! k) as [v|] eqn:E.
        + by apply map_lookup_filter_Some.
        + apply map_lookup_filter_None. by left.
      - apply map_lookup_filter_None. right. intros ? _ ?. done. }
    intros k Hk. cbn.
    assert (k ∉ declared_properties) as Hout.
    { destruct Hk as [-> | ->]; apply (bool_decide_unpack _); by vm_compute. }
    destruct (Hrule k Hout). done.
Qed.

(** ** The loops of [get_data] in closed form *)

Lemma filter_series_cons (idx : PyVal) (col : string) (cols : list string) :
  filter (λ c, is_string_eq idx c = false) (col :: cols)
  = if is_string_eq idx col
    then filter (λ c, is_string_eq idx c = false) cols
    else col :: filter (λ c, is_string_eq idx c = false) cols.
Proof.
  rewrite filter_cons. destruct (is_string_eq idx col); by case_decide.
Qed.

Lemma column_of_readable (values : V) (xs : list Q) (col : string) :
  readable values xs col →
  mapM (λ x, getitem values col x) xs = Some (column_of values xs col).
Proof. intros [c Hc]. unfold column_of. by rewrite Hc. Qed.

Lemma LineBuilder_get_data_loop_closed
      (cols : list string) (xs : list Q) (self : Builder V) :
  let kept := filter (λ c, is_string_eq (index self) c = false) cols in
  Forall (readable (_values self) xs) kept →
  LineBuilder_get_data_loop cols xs self
  = Some (with_groups (_groups self ++ kept)
            (with_data (line_columns (_values self) xs kept (_data self))
                       (_attr self ++ (String.append "y_" <$> kept)) self)).
Proof.
  revert self. induction cols as [|col cols IH]; intros self kept Hread.
  - subst kept. cbn. rewrite !app_nil_r. by destruct self.
  - subst kept. rewrite filter_series_cons in *. cbn [LineBuilder_get_data_loop].
    destruct (is_string_eq (index self) col) eqn:Hcol.
    + by apply IH.
    + apply Forall_cons in Hread as [Hcol_read Hrest].
      cbn [_values with_groups].
      rewrite (column_of_readable _ _ _ Hcol_read). cbn [mbind option_bind].
      rewrite IH by done. cbn. by rewrite <- !app_assoc.
Qed.

Lemma LineBuilder_get_data_loop_readable
      (cols : list string) (xs : list Q) (self self' : Builder V) :
  LineBuilder_get_data_loop cols xs self = Some self' →
  Forall (readable (_values self) xs)
         (filter (λ c, is_string_eq (index self) c = false) cols).
Proof.
  revert self. induction cols as [|col cols IH]; intros self Hloop.
  - constructor.
  - rewrite filter_series_cons. cbn [LineBuilder_get_data_loop] in Hloop.
    destruct (is_string_eq (index self) col) eqn:Hcol; [by apply IH|].
    cbn [_values with_groups] in Hloop.
    destruct (mapM _ xs) as [values|] eqn:Hvalues; [|done].
    constructor; [by eexists|]. by apply IH in Hloop.
Qed.

Lemma StepBuilder_get_data_loop_closed
      (cols : list string) (xs : list Q) (self : Builder V) :
  let kept := filter (λ c, is_string_eq (index self) c = false) cols in
  Forall (readable (_values self) xs) kept →
  StepBuilder_get_data_loop cols xs self
  = Some (with_groups (_groups self ++ kept)
            (with_data (step_columns (_values self) xs kept (_data self))
                       (_attr self
                        ++ (kept ≫= λ c, ["y1_" +:+ c; "y2_" +:+ c])) self)).
Proof.
  revert self. induction cols as [|col cols IH]; intros self kept Hread.
  - subst kept. cbn. rewrite !app_nil_r. by destruct self.
  - subst kept. rewrite filter_series_cons in *. cbn [StepBuilder_get_data_loop].
    destruct (is_string_eq (index self) col) eqn:Hcol.
    + by apply IH.
    + apply Forall_cons in Hread as [Hcol_read Hrest].
      cbn [_values with_groups].
      rewrite (column_of_readable _ _ _ Hcol_read). cbn [mbind option_bind].
      rewrite IH by done. cbn. by rewrite <- !app_assoc.
Qed.

Lemma StepBuilder_get_data_loop_readable
      (cols : list string) (xs : list Q) (self self' : Builder V) :
  StepBuilder_get_data_loop cols xs self = Some self' →
  Forall (readable (_values self) xs)
         (filter (λ c, is_string_eq (index self) c = false) cols).
Proof.
  revert self. induction cols as [|col cols IH]; intros self Hloop.
  - constructor.
  - rewrite filter_series_cons. cbn [StepBuilder_get_data_loop] in Hloop.
    destruct (is_string_eq (index self) col) eqn:Hcol; [by apply IH|].
    cbn [_values with_groups] in Hloop.
    destruct (mapM _ xs) as [values|] eqn:Hvalues; [|done].
    constructor; [by eexists|]. by apply IH in Hloop.
Qed.

(** ** Looking up the columns that [get_data] created *)

Lemma line_columns_cons (values : V) (xs : list Q) (col : string)
      (cols : list string) (data : gmap string (list Q)) :
  line_columns values xs (col :: cols) data
  = line_columns values xs cols
      (<["y_" +:+ col := column_of values xs col]> data).
Proof. reflexivity. Qed.

Lemma step_columns_cons (values : V) (xs : list Q) (col : string)
      (cols : list string) (data : gmap string (list Q)) :
  step_columns values xs (col :: cols) data
  = step_columns values xs cols
      (<["y2_" +:+ col := Py.tail (column_of values xs col)]>
         (<["y1_" +:+ col := Py.init (column_of values xs col)]> data)).
Proof. reflexivity. Qed.

Lemma line_columns_other (values : V) (xs : list Q) (cols : list string)
      (data : gmap string (list Q)) (k : string) :
  (∀ c, c ∈ cols → k ≠ "y_" +:+ c) →
  line_columns values xs cols data !! k = data !! k.
Proof.
  revert data. induction cols as [|col cols IH]; intros data Hk; [done|].
  rewrite line_columns_cons, IH by (intros c Hc; apply Hk; by right).
  apply lookup_insert_ne. intros Heq. by apply (Hk col); [left|].
Qed.

Lemma line_columns_series (values : V) (xs : list Q) (cols : list string)
      (data : gmap string (list Q)) (col : string) :
  col ∈ cols →
  line_columns values xs cols data !! ("y_" +:+ col)
  = Some (column_of values xs col).
Proof.
  revert data. induction cols as [|c cols IH]; intros data Hcol.
  - by apply elem_of_nil in Hcol.
  - rewrite line_columns_cons.
    destruct (decide (col ∈ cols)) as [Hin|Hout]; [by apply IH|].
    apply elem_of_cons in Hcol as [->|?]; [|done].
    rewrite line_columns_other; [apply lookup_insert_eq|].
    intros c' Hc' Heq. cbn in Heq. by simplify_eq.
Qed.

Lemma line_columns_dom (values : V) (xs : list Q) (cols : list string)
      (data : gmap string (list Q)) (k : string) :
  is_Some (line_columns values xs cols data !! k) →
  is_Some (data !! k) ∨ ∃ c, c ∈ cols ∧ k = "y_" +:+ c.
Proof.
  revert data. induction cols as [|col cols IH]; intros data Hk; [by left|].
  rewrite line_columns_cons in Hk. apply IH in Hk as [Hk|(c & Hc & ->)].
  - destruct (decide (k = "y_" +:+ col)) as [->|Hne].
    + right. exists col. split; [by left|done].
    + left. by rewrite lookup_insert_ne in Hk.
  - right. exists c. split; [by right|done].
Qed.

Lemma step_columns_other (values : V) (xs : list Q) (cols : list string)
      (data : gmap string (list Q)) (k : string) :
  (∀ c, c ∈ cols → k ≠ "y1_" +:+ c ∧ k ≠ "y2_" +:+ c) →
  step_columns values xs cols data !! k = data !! k.
Proof.
  revert data. induction cols as [|col cols IH]; intros data Hk; [done|].
  rewrite step_columns_cons, IH by (intros c Hc; apply Hk; by right).
  destruct (Hk col) as [H1 H2]; [by left|].
  by rewrite !lookup_insert_ne.
Qed.

Lemma step_columns_series (values : V) (xs : list Q) (cols : list string)
      (data : gmap string (list Q)) (col : string) :
  col ∈ cols →
  step_columns values xs cols data !! ("y1_" +:+ col)
  = Some (Py.init (column_of values xs col)) ∧
  step_columns values xs cols data !! ("y2_" +:+ col)
  = Some (Py.tail (column_of values xs col)).
Proof.
  revert data. induction cols as [|c cols IH]; intros data Hcol.
  - by apply elem_of_nil in Hcol.
  - rewrite step_columns_cons.
    destruct (decide (col ∈ cols)) as [Hin|Hout]; [by apply IH|].
    apply elem_of_cons in Hcol as [->|?]; [|done].
    rewrite !step_columns_other.
    + split; [|apply lookup_insert_eq].
      rewrite lookup_insert_ne by done. apply lookup_insert_eq.
    + intros c' Hc'. split; [done|]. intros Heq. cbn in Heq. by simplify_eq.
    + intros c' Hc'. split; [|done]. intros Heq. cbn in Heq. by simplify_eq.
Qed.

Lemma step_columns_dom (values : V) (xs : list Q) (cols : list string)
      (data : gmap string (list Q)) (k : string) :
  is_Some (step_columns values xs cols data !! k) →
  is_Some (data !! k) ∨
  ∃ c, c ∈ cols ∧ (k = "y1_" +:+ c ∨ k = "y2_" +:+ c).
Proof.
  revert data. induction cols as [|col cols IH]; intros data Hk; [by left|].
  rewrite step_columns_cons in Hk. apply IH in Hk as [Hk|(c & Hc & Hkc)].
  - destruct (decide (k = "y2_" +:+ col)) as [->|Hne2].
    { right. exists col. split; [by left|by right]. }
    destruct (decide (k = "y1_" +:+ col)) as [->|Hne1].
    { right. exists col. split; [by left|by left]. }
    left. by rewrite !lookup_insert_ne in Hk.
  - right. exists c. split; [by right|done].
Qed.

(** ** [get_data] in closed form *)

Lemma LineBuilder_get_data_closed (self : Builder V) (xs : list Q) :
  _values_index self = Some xs →
  Forall (readable (_values self) xs) (series self) →
  LineBuilder_get_data self
  = Some (with_groups (_groups self ++ series self)
            (with_data
               (line_columns (_values self) xs (series self) {["x" := xs]})
               ("x" :: (String.append "y_" <$> series self)) self)).
Proof.
  intros Hxs Hread. unfold LineBuilder_get_data. cbn. rewrite Hxs. cbn.
  rewrite LineBuilder_get_data_loop_closed by done. cbn.
  by rewrite insert_empty.
Qed.

Lemma LineBuilder_get_data_inv (self self' : Builder V) :
  LineBuilder_get_data self = Some self' →
  ∃ xs, _values_index self = Some xs ∧
        Forall (readable (_values self) xs) (series self).
Proof.
  unfold LineBuilder_get_data. cbn.
  destruct (_values_index self) as [xs|]; [cbn|done]. intros Hloop.
  exists xs. split; [done|].
  by apply LineBuilder_get_data_loop_readable in Hloop.
Qed.

Lemma StepBuilder_get_data_closed (self : Builder V) (xs : list Q) :
  _values_index self = Some xs →
  Forall (readable (_values self) xs) (series self) →
  StepBuilder_get_data self
  = Some (with_groups (series self)
            (with_data
               (step_columns (_values self) xs (series self)
                  (<["x2" := Py.tail xs]> {["x" := Py.init xs]}))
               ("x" :: "x2"
                    :: (series self ≫= λ c, ["y1_" +:+ c; "y2_" +:+ c]))
               self)).
Proof.
  intros Hxs Hread. unfold StepBuilder_get_data. cbn. rewrite Hxs. cbn.
  rewrite StepBuilder_get_data_loop_closed by done. cbn.
  by rewrite insert_empty.
Qed.

Lemma StepBuilder_get_data_inv (self self' : Builder V) :
  StepBuilder_get_data self = Some self' →
  ∃ xs, _values_index self = Some xs ∧
        Forall (readable (_values self) xs) (series self).
Proof.
  unfold StepBuilder_get_data. cbn.
  destruct (_values_index self) as [xs|]; [cbn|done]. intros Hloop.
  exists xs. split; [done|].
  by apply StepBuilder_get_data_loop_readable in Hloop.
Qed.

(** ** The helpers of [draw] *)

Lemma cycle_colors_length {A} (l : list A) :
  length (cycle_colors l) = length l.
Proof. unfold cycle_colors. by rewrite length_fmap, length_seq. Qed.

Lemma cycle_colors_lookup {A} (l : list A) (j : nat) :
  j < length l → cycle_colors l !! j = Some (palette_color j).
Proof.
  intros Hj. unfold cycle_colors.
  by rewrite list_lookup_fmap, lookup_seq_lt.
Qed.

Lemma chunk_fuel_pairs {A B} (f g : A → B) (l : list A) (fuel : nat) :
  length l ≤ fuel →
  chunk_fuel fuel (l ≫= λ c, [f c; g c]) 2 = (λ c, [f c; g c]) <$> l.
Proof.
  revert fuel. induction l as [|c l IH]; intros fuel Hfuel.
  - by destruct fuel.
  - destruct fuel as [|fuel]; [cbn in Hfuel; lia|].
    cbn. f_equal. apply IH. cbn in Hfuel. lia.
Qed.

Lemma chunk_pairs {A B} (f g : A → B) (l : list A) :
  chunk (l ≫= λ c, [f c; g c]) 2 = (λ c, [f c; g c]) <$> l.
Proof.
  unfold chunk. apply chunk_fuel_pairs.
  induction l as [|c l IH]; cbn; [done|]. lia.
Qed.

(** ** The loops of [draw] in closed form *)

Lemma imap_cons_shift {A B} (g : nat → A → B) (n : nat) (x : A)
      (l : list A) :
  imap (λ j, g (n + j)) (x :: l) = g n x :: imap (λ j, g (S n + j)) l.
Proof.
  cbn [imap]. rewrite Nat.add_0_r. f_equal.
  apply imap_ext. intros j y _. cbn. by rewrite Nat.add_succ_r.
Qed.

Lemma LineBuilder_draw_loop_closed
      (colors : list string) (n : nat) (duplets : list string)
      (self : Builder V) :
  (∀ j, j < length duplets → colors !! (n + j) = Some (palette_color (n + j))) →
  n + length duplets ≤ length (_groups self) →
  let rs := imap (λ j d, {| data_source := _source self;
                            glyph := LineGlyph "x" d (palette_color (n + j)) |})
                 duplets in
  LineBuilder_draw_loop colors (S n) duplets self
  = Some (rs,
          with_legends
            (_legends self
             ++ zip_with (λ g r, (g, [r]))
                  (take (length duplets) (drop n (_groups self))) rs)
            self).
Proof.
  revert n self. induction duplets as [|d rest IH]; intros n self Hcol Hlen rs.
  - subst rs. cbn. rewrite app_nil_r. by destruct self.
  - subst rs. cbn [LineBuilder_draw_loop]. cbn in Hlen.
    replace (S n - 1) with n by lia.
    pose proof (Hcol 0 ltac:(cbn; lia)) as Hc0.
    rewrite Nat.add_0_r in Hc0. rewrite Hc0. cbn [mbind option_bind].
    destruct (lookup_lt_is_Some_2 (_groups self) n ltac:(lia)) as [g Hg].
    rewrite Hg. cbn [mbind option_bind].
    rewrite IH; cbn [_groups _legends _source with_legends length].
    + rewrite (imap_cons_shift
                 (λ m d', {| data_source := _source self;
                             glyph := LineGlyph "x" d' (palette_color m) |})).
      rewrite (drop_S _ g n Hg). cbn [take zip_with].
      by rewrite <- app_assoc.
    + intros j Hj. replace (S n + j) with (n + S j) by lia.
      apply Hcol. cbn. lia.
    + lia.
Qed.

Lemma StepBuilder_draw_loop_closed
      (colors : list string) (n : nat) (cols : list string)
      (self : Builder V) :
  (∀ j, j < length cols → colors !! (n + j) = Some (palette_color (n + j))) →
  n + length cols ≤ length (_groups self) →
  let horizontal j c :=
    {| data_source := _source self;
       glyph := Segment "x2" ("y1_" +:+ c) "x2" ("y2_" +:+ c)
                        (palette_color (n + j)) |} in
  let vertical j c :=
    {| data_source := _source self;
       glyph := Segment "x" ("y1_" +:+ c) "x2" ("y1_" +:+ c)
                        (palette_color (n + j)) |} in
  StepBuilder_draw_loop colors n
    ((λ c, ["y1_" +:+ c; "y2_" +:+ c]) <$> cols) self
  = Some (mjoin (imap (λ j c, [horizontal j c; vertical j c]) cols),
          with_legends
            (_legends self
             ++ zip_with (λ g r, (g, [r]))
                  (take (length cols) (drop n (_groups self)))
                  (imap vertical cols))
            self).
Proof.
  revert n self. induction cols as [|c rest IH]; intros n self Hcol Hlen.
  - cbn. rewrite app_nil_r. by destruct self.
  - cbn [fmap list_fmap StepBuilder_draw_loop]. cbn in Hlen.
    cbn [lookup list_lookup mbind option_bind].
    pose proof (Hcol 0 ltac:(cbn; lia)) as Hc0.
    rewrite Nat.add_0_r in Hc0. rewrite Hc0. cbn [mbind option_bind].
    destruct (lookup_lt_is_Some_2 (_groups self) n ltac:(lia)) as [g Hg].
    rewrite Hg. cbn [mbind option_bind].
    rewrite IH; cbn [_groups _legends _source with_legends length].
    + rewrite (imap_cons_shift
                 (λ m c', [
                    {| data_source := _source self;
                       glyph := Segment "x2" ("y1_" +:+ c') "x2"
                                        ("y2_" +:+ c') (palette_color m) |};
                    {| data_source := _source self;
                       glyph := Segment "x" ("y1_" +:+ c') "x2"
                                        ("y1_" +:+ c') (palette_color m) |}])).
      rewrite (imap_cons_shift
                 (λ m c',
                    {| data_source := _source self;
                       glyph := Segment "x" ("y1_" +:+ c') "x2"
                                        ("y1_" +:+ c') (palette_color m) |})).
      rewrite (drop_S _ g n Hg). cbn [take zip_with mjoin list_join app].
      by rewrite <- app_assoc.
    + intros j Hj. replace (S n + j) with (n + S j) by lia.
      apply Hcol. cbn. lia.
    + lia.
Qed.

(** ** [get_source] leaves the derived data alone *)

Lemma LineBuilder_get_source_inv (self s2 : Builder V) :
  LineBuilder_get_source self = Some s2 →
  ∃ starty endy,
    min_of_columns (_data self) (drop 1 (_attr self)) = Some starty ∧
    max_of_columns (_data self) (drop 1 (_attr self)) = Some endy ∧
    s2 = with_ranges
           (Some (DataRange1d [columns {| cds_data := _data self |} "x"]))
           (Some (padded_range starty endy))
           (with_source (Some {| cds_data := _data self |}) self).
Proof.
  unfold LineBuilder_get_source.
  cbn [_data _attr x_range y_range with_source with_ranges].
  destruct (max_of_columns _ _) as [endy|]; [|done].
  destruct (min_of_columns _ _) as [starty|]; [|done].
  cbn [mbind option_bind]. intros [= <-]. by exists starty, endy.
Qed.

Lemma StepBuilder_get_source_inv (self s2 : Builder V) :
  StepBuilder_get_source self = Some s2 →
  ∃ starty endy,
    min_of_columns (_data self) (drop 1 (_attr self)) = Some starty ∧
    max_of_columns (_data self) (drop 1 (_attr self)) = Some endy ∧
    s2 = with_ranges
           (Some (DataRange1d [columns {| cds_data := _data self |} "x";
                               columns {| cds_data := _data self |} "x2"]))
           (Some (padded_range starty endy))
           (with_source (Some {| cds_data := _data self |}) self).
Proof.
  unfold StepBuilder_get_source.
  cbn [_data _attr x_range y_range with_source with_ranges].
  destruct (max_of_columns _ _) as [endy|]; [|done].
  destruct (min_of_columns _ _) as [starty|]; [|done].
  cbn [mbind option_bind]. intros [= <-]. by exists starty, endy.
Qed.

(** ** From [get_data] to the end of [draw] *)

Lemma length_join_pairs {A B} (f g : nat → A → B) (l : list A) :
  length (mjoin (imap (λ j c, [f j c; g j c]) l)) = 2 * length l.
Proof.
  revert f g. induction l as [|c l IH]; intros f g; [done|].
  transitivity (S (S (2 * length l))); [|cbn; lia].
  cbn. do 2 f_equal. exact (IH (f ∘ S) (g ∘ S)).
Qed.

Lemma lookup_join_pairs {A B} (f g : nat → A → B) (l : list A)
      (j : nat) (c : A) :
  l !! j = Some c →
  mjoin (imap (λ i a, [f i a; g i a]) l) !! (2 * j) = Some (f j c) ∧
  mjoin (imap (λ i a, [f i a; g i a]) l) !! (2 * j + 1) = Some (g j c).
Proof.
  revert f g j. induction l as [|a l IH]; intros f g j Hj; [done|].
  destruct j as [|j].
  - cbn in Hj. by simplify_eq.
  - cbn in Hj. replace (2 * S j) with (S (S (2 * j))) by lia.
    cbn [imap mjoin list_join app lookup list_lookup Nat.add].
    apply (IH (f ∘ S) (g ∘ S) j Hj).
Qed.

Lemma LineBuilder_draw_after_get_data (self s1 s2 : Builder V) :
  LineBuilder_get_data self = Some s1 →
  LineBuilder_get_source s1 = Some s2 →
  let rs := imap (λ j c, {| data_source := _source s2;
                            glyph := LineGlyph "x" ("y_" +:+ c)
                                               (palette_color j) |})
                 (series self) in
  _groups s2 = _groups self ++ series self ∧
  LineBuilder_draw s2
  = Some (rs,
          with_legends
            (_legends self
             ++ zip_with (λ g r, (g, [r]))
                  (take (length (series self))
                        (_groups self ++ series self)) rs)
            s2).
Proof.
  intros Hdata Hsource rs.
  destruct (LineBuilder_get_data_inv _ _ Hdata) as (xs & Hxs & Hread).
  rewrite (LineBuilder_get_data_closed _ _ Hxs Hread) in Hdata.
  injection Hdata as <-.
  destruct (LineBuilder_get_source_inv _ _ Hsource) as (lo & hi & _ & _ & Hs2).
  assert (_attr s2 = "x" :: (String.append "y_" <$> series self)) as Hattr
      by by rewrite Hs2.
  assert (_groups s2 = _groups self ++ series self) as Hgroups
      by by rewrite Hs2.
  assert (_legends s2 = _legends self) as Hlegends by by rewrite Hs2.
  clear Hs2 Hsource. split; [done|]. subst rs. unfold LineBuilder_draw.
  rewrite Hattr. cbn [drop]. rewrite drop_0.
  rewrite LineBuilder_draw_loop_closed.
  - by rewrite Hgroups, Hlegends, drop_0, length_fmap, imap_fmap.
  - intros j Hj. rewrite length_fmap in Hj.
    apply cycle_colors_lookup. cbn. rewrite length_fmap. lia.
  - rewrite Hgroups, length_fmap, length_app. lia.
Qed.

Lemma StepBuilder_draw_after_get_data (self s1 s2 : Builder V) :
  StepBuilder_get_data self = Some s1 →
  StepBuilder_get_source s1 = Some s2 →
  let horizontal j c :=
    {| data_source := _source s2;
       glyph := Segment "x2" ("y1_" +:+ c) "x2" ("y2_" +:+ c)
                        (palette_color j) |} in
  let vertical j c :=
    {| data_source := _source s2;
       glyph := Segment "x" ("y1_" +:+ c) "x2" ("y1_" +:+ c)
                        (palette_color j) |} in
  _groups s2 = series self ∧
  StepBuilder_draw s2
  = Some (mjoin (imap (λ j c, [horizontal j c; vertical j c]) (series self)),
          with_legends
            (_legends self
             ++ zip_with (λ g r, (g, [r])) (series self)
                  (imap vertical (series self)))
            s2).
Proof.
  intros Hdata Hsource horizontal vertical.
  destruct (StepBuilder_get_data_inv _ _ Hdata) as (xs & Hxs & Hread).
  rewrite (StepBuilder_get_data_closed _ _ Hxs Hread) in Hdata.
  injection Hdata as <-.
  destruct (StepBuilder_get_source_inv _ _ Hsource) as (lo & hi & _ & _ & Hs2).
  assert (_attr s2 = "x" :: "x2"
                         :: (series self ≫= λ c, ["y1_" +:+ c; "y2_" +:+ c]))
    as Hattr by by rewrite Hs2.
  assert (_groups s2 = series self) as Hgroups by by rewrite Hs2.
  assert (_legends s2 = _legends self) as Hlegends by by rewrite Hs2.
  clear Hs2 Hsource. split; [done|]. subst horizontal vertical.
  unfold StepBuilder_draw. rewrite Hattr. cbn [drop]. rewrite drop_0.
  rewrite chunk_pairs, StepBuilder_draw_loop_closed.
  - by rewrite Hgroups, Hlegends, drop_0, firstn_all.
  - intros j Hj. apply cycle_colors_lookup. by rewrite length_fmap.
  - rewrite Hgroups. lia.
Qed.

(** ** The columns of a step chart *)

Lemma Py_init_length {A} (l : list A) : length (Py.init l) = length l - 1.
Proof. unfold Py.init. rewrite length_take. lia. Qed.

Lemma Py_tail_length {A} (l : list A) : length (Py.tail l) = length l - 1.
Proof. unfold Py.tail. by rewrite length_drop. Qed.

(** C5: for a builder whose index sequence is [I] and whose series [s] read
    along [I] give the values [v s], [StepBuilder.get_data] returns, and it
    has created, in this order, the attributes [x], [x2] and then [y1_s],
    [y2_s] for each series; [x] holds [I[:-1]], [x2] holds [I[1:]], [y1_s]
    holds [v s[:-1]] and [y2_s] holds [v s[1:]]; the data has no other
    column, and every column has [len(I) - 1] items (none when [I] is
    empty). *)
Theorem StepBuilder_get_data_columns
        (self : Builder V) (I : list Q) (v : string → list Q) :
  _values_index self = Some I →
  (∀ s, s ∈ series self →
        mapM (λ x, getitem (_values self) s x) I = Some (v s)) →
  ∃ self',
    StepBuilder_get_data self = Some self' ∧
    _attr self'
    = "x" :: "x2" :: (series self ≫= λ s, ["y1_" +:+ s; "y2_" +:+ s]) ∧
    _data self' !! "x" = Some (Py.init I) ∧
    _data self' !! "x2" = Some (Py.tail I) ∧
    (∀ s, s ∈ series self →
          _data self' !! ("y1_" +:+ s) = Some (Py.init (v s)) ∧
          _data self' !! ("y2_" +:+ s) = Some (Py.tail (v s))) ∧
    (∀ k, is_Some (_data self' !! k) → k ∈ _attr self') ∧
    (∀ k c, _data self' !! k = Some c → length c = length I - 1).
Proof.
  intros HI Hv.
  assert (Forall (readable (_values self) I) (series self)) as Hread.
  { apply Forall_forall. intros s Hs. unfold readable. rewrite Hv; eauto. }
  assert (∀ s, s ∈ series self → column_of (_values self) I s = v s) as Hcol.
  { intros s Hs. unfold column_of. by rewrite Hv. }
  eexists. split; [by apply StepBuilder_get_data_closed|].
  cbn [_attr _data with_groups with_data].
  assert (∀ s, s ∈ series self →
     step_columns (_values self) I (series self)
       (<["x2" := Py.tail I]> {["x" := Py.init I]}) !! ("y1_" +:+ s)
     = Some (Py.init (v s)) ∧
     step_columns (_values self) I (series self)
       (<["x2" := Py.tail I]> {["x" := Py.init I]}) !! ("y2_" +:+ s)
     = Some (Py.tail (v s))) as Hy.
  { intros s Hs. rewrite <- (Hcol s Hs). by apply step_columns_series. }
  assert (step_columns (_values self) I (series self)
            (<["x2" := Py.tail I]> {["x" := Py.init I]}) !! "x"
          = Some (Py.init I)) as Hx.
  { rewrite step_columns_other by done.
    rewrite lookup_insert_ne by done. apply lookup_singleton_eq. }
  assert (step_columns (_values self) I (series self)
            (<["x2" := Py.tail I]> {["x" := Py.init I]}) !! "x2"
          = Some (Py.tail I)) as Hx2.
  { rewrite step_columns_other by done. apply lookup_insert_eq. }
  assert (∀ k, is_Some (step_columns (_values self) I (series self)
                 (<["x2" := Py.tail I]> {["x" := Py.init I]}) !! k) →
               k = "x" ∨ k = "x2" ∨
               ∃ s, s ∈ series self ∧ (k = "y1_" +:+ s ∨ k = "y2_" +:+ s))
    as Hdom.
  { intros k Hk. apply step_columns_dom in Hk as [Hk|Hk]; [|by auto].
    destruct (decide (k = "x2")) as [->|Hne2]; [by auto|].
    rewrite lookup_insert_ne in Hk by done.
    destruct (decide (k = "x")) as [->|Hne]; [by auto|].
    rewrite lookup_singleton_ne in Hk by done. by destruct Hk. }
  split; [reflexivity|]. split; [exact Hx|]. split; [exact Hx2|].
  split; [exact Hy|]. split.
  - intros k Hk. apply Hdom in Hk as [->|[->|(s & Hs & Hk)]].
    + by left.
    + right. by left.
    + do 2 right. apply list_elem_of_bind. exists s. split; [|done].
      destruct Hk as [-> | ->]; [by left|right; by left].
  - intros k c Hk. destruct (Hdom k) as [->|[->|(s & Hs & Hks)]]; [by eauto|..].
    + rewrite Hx in Hk. injection Hk as <-. apply Py_init_length.
    + rewrite Hx2 in Hk. injection Hk as <-. apply Py_tail_length.
    + destruct (Hy s Hs) as [Hy1 Hy2].
      pose proof (length_mapM _ _ _ (Hv s Hs)) as Hlen.
      destruct Hks as [-> | ->].
      * rewrite Hy1 in Hk. injection Hk as <-. rewrite Py_init_length. lia.
      * rewrite Hy2 in Hk. injection Hk as <-. rewrite Py_tail_length. lia.
Qed.

(** ** Renderers and legends *)

(** X14: when [get_data] and [get_source] have succeeded, [draw] returns.
    The series counted here are the ones [get_data] kept: every key of the
    builder's adapted values other than the name the builder holds in its
    own [index] attribute.  [LineBuilder.draw] yields exactly one renderer
    for each of them, a line over [x] and that series' [y_] column, and
    [StepBuilder.draw] yields exactly two for each, the segment between
    the two levels at [x2] and then the segment from [x] to [x2] at the
    first level; both in the order of the series, the colour of the
    [j]-th series being the [j]-th of the cycled palette. *)
Theorem draw_renderers_per_series (self s1 s2 : Builder V) :
  (LineBuilder_get_data self = Some s1 →
   LineBuilder_get_source s1 = Some s2 →
   ∃ rs s3,
     LineBuilder_draw s2 = Some (rs, s3) ∧
     length rs = length (series self) ∧
     rs = imap (λ j s, {| data_source := _source s2;
                          glyph := LineGlyph "x" ("y_" +:+ s)
                                             (palette_color j) |})
               (series self)) ∧
  (StepBuilder_get_data self = Some s1 →
   StepBuilder_get_source s1 = Some s2 →
   ∃ rs s3,
     StepBuilder_draw s2 = Some (rs, s3) ∧
     length rs = 2 * length (series self) ∧
     rs = mjoin (imap (λ j s,
                   [ {| data_source := _source s2;
                        glyph := Segment "x2" ("y1_" +:+ s) "x2"
                                         ("y2_" +:+ s) (palette_color j) |};
                     {| data_source := _source s2;
                        glyph := Segment "x" ("y1_" +:+ s) "x2"
                                         ("y1_" +:+ s) (palette_color j) |} ])
                   (series self))).
Proof.
  split; intros Hdata Hsource.
  - destruct (LineBuilder_draw_after_get_data _ _ _ Hdata Hsource)
      as [_ Hdraw].
    do 2 eexists. split; [exact Hdraw|]. split; [|done].
    by rewrite length_imap.
  - destruct (StepBuilder_draw_after_get_data _ _ _ Hdata Hsource)
      as [_ Hdraw].
    do 2 eexists. split; [exact Hdraw|]. split; [|done].
    apply length_join_pairs.
Qed.

Lemma fst_zip_with_legend (gs : list string) (rs : list GlyphRenderer) :
  length gs = length rs →
  (zip_with (λ g r, (g, [r])) gs rs).*1 = gs.
Proof.
  revert rs. induction gs as [|g gs IH]; intros [|r rs] Hlen; try done.
  cbn. f_equal. apply IH. cbn in Hlen. lia.
Qed.

(** C8: for a builder whose legend list and group list are still empty, as
    the constructor leaves them, after [draw] has been consumed in full the
    series names of the legend entries are the [_groups] list, name for
    name.  For [StepBuilder] (whatever its group list was) each series has
    exactly one entry, and its renderer list holds the second of the two
    renderers yielded for that series and not the first. *)
Theorem legends_follow_groups (self s1 s2 : Builder V) :
  _legends self = [] →
  (_groups self = [] →
   LineBuilder_get_data self = Some s1 →
   LineBuilder_get_source s1 = Some s2 →
   ∃ rs s3,
     LineBuilder_draw s2 = Some (rs, s3) ∧
     (_legends s3).*1 = _groups s3 ∧
     _groups s3 = series self ∧
     _legends s3 = zip_with (λ g r, (g, [r])) (series self) rs) ∧
  (StepBuilder_get_data self = Some s1 →
   StepBuilder_get_source s1 = Some s2 →
   ∃ rs s3,
     StepBuilder_draw s2 = Some (rs, s3) ∧
     (_legends s3).*1 = _groups s3 ∧
     _groups s3 = series self ∧
     length (_legends s3) = length (series self) ∧
     ∀ j s, series self !! j = Some s →
            ∃ first second,
              rs !! (2 * j) = Some first ∧
              rs !! (2 * j + 1) = Some second ∧
              _legends s3 !! j = Some (s, [second]) ∧
              first ≠ second).
Proof.
  intros Hlegends. split.
  - intros Hgroups Hdata Hsource.
    destruct (LineBuilder_draw_after_get_data _ _ _ Hdata Hsource)
      as [Hg2 Hdraw].
    rewrite Hlegends, Hgroups in Hdraw. rewrite Hgroups in Hg2.
    cbn [app] in Hdraw, Hg2. rewrite firstn_all in Hdraw.
    do 2 eexists. split; [exact Hdraw|].
    cbn [_legends _groups with_legends]. rewrite Hg2.
    split; [|done]. apply fst_zip_with_legend. by rewrite length_imap.
  - intros Hdata Hsource.
    destruct (StepBuilder_draw_after_get_data _ _ _ Hdata Hsource)
      as [Hg2 Hdraw].
    rewrite Hlegends in Hdraw. cbn [app] in Hdraw.
    do 2 eexists. split; [exact Hdraw|].
    cbn [_legends _groups with_legends]. rewrite Hg2.
    split; [apply fst_zip_with_legend; by rewrite length_imap|].
    split; [done|].
    split; [rewrite length_zip_with, length_imap; lia|].
    intros j s Hj.
    destruct (lookup_join_pairs
                (λ i c, {| data_source := _source s2;
                           glyph := Segment "x2" ("y1_" +:+ c) "x2"
                                            ("y2_" +:+ c) (palette_color i) |})
                (λ i c, {| data_source := _source s2;
                           glyph := Segment "x" ("y1_" +:+ c) "x2"
                                            ("y1_" +:+ c) (palette_color i) |})
                (series self) j s Hj) as [Hfirst Hsecond].
    do 2 eexists. split; [exact Hfirst|]. split; [exact Hsecond|].
    split; [|done].
    by rewrite lookup_zip_with, list_lookup_imap, Hj.
Qed.

(** ** Running the three hooks one after the other *)

Lemma LineBuilder_get_source_closed (self : Builder V) (starty endy : Q) :
  min_of_columns (_data self) (drop 1 (_attr self)) = Some starty →
  max_of_columns (_data self) (drop 1 (_attr self)) = Some endy →
  LineBuilder_get_source self
  = Some (with_ranges
            (Some (DataRange1d [columns {| cds_data := _data self |} "x"]))
            (Some (padded_range starty endy))
            (with_source (Some {| cds_data := _data self |}) self)).
Proof.
  intros Hmin Hmax. unfold LineBuilder_get_source.
  cbn [_data _attr x_range y_range with_source with_ranges].
  by rewrite Hmin, Hmax.
Qed.

Lemma StepBuilder_get_source_closed (self : Builder V) (starty endy : Q) :
  min_of_columns (_data self) (drop 1 (_attr self)) = Some starty →
  max_of_columns (_data self) (drop 1 (_attr self)) = Some endy →
  StepBuilder_get_source self
  = Some (with_ranges
            (Some (DataRange1d [columns {| cds_data := _data self |} "x";
                                columns {| cds_data := _data self |} "x2"]))
            (Some (padded_range starty endy))
            (with_source (Some {| cds_data := _data self |}) self)).
Proof.
  intros Hmin Hmax. unfold StepBuilder_get_source.
  cbn [_data _attr x_range y_range with_source with_ranges].
  by rewrite Hmin, Hmax.
Qed.

Lemma same_input_series (a b : Builder V) :
  same_input a b → series a = series b.
Proof. intros (Hi & Hv & _). unfold series. by rewrite Hi, Hv. Qed.

(** What a run of the hooks leaves behind, apart from the legends, depends
    on the input only; the legends are those the builder already had
    followed by one entry per series. *)
Lemma LineBuilder_hooks_again (a b a1 a2 a3 : Builder V)
      (rs : list GlyphRenderer) :
  same_input a b →
  LineBuilder_get_data a = Some a1 →
  LineBuilder_get_source a1 = Some a2 →
  LineBuilder_draw a2 = Some (rs, a3) →
  ∃ b1 b2 b3 new,
    LineBuilder_get_data b = Some b1 ∧
    LineBuilder_get_source b1 = Some b2 ∧
    LineBuilder_draw b2 = Some (rs, b3) ∧
    _data b3 = _data a3 ∧ _attr b3 = _attr a3 ∧
    x_range b3 = x_range a3 ∧ y_range b3 = y_range a3 ∧
    same_input a a3 ∧ same_input b b3 ∧
    _groups a3 = _groups a ++ series a ∧
    _groups b3 = _groups b ++ series a ∧
    _legends a3
    = _legends a ++ zip_with (λ g r, (g, [r]))
                      (take (length (series a)) (_groups a ++ series a)) new ∧
    _legends b3
    = _legends b ++ zip_with (λ g r, (g, [r]))
                      (take (length (series a)) (_groups b ++ series a)) new.
Proof.
  intros Hsame Hdata Hsource Hdraw.
  pose proof (same_input_series _ _ Hsame) as Hseries.
  destruct Hsame as (Hindex & Hvalues & Hxs_eq).
  destruct (LineBuilder_get_data_inv _ _ Hdata) as (xs & Hxs & Hread).
  pose proof (LineBuilder_draw_after_get_data _ _ _ Hdata Hsource)
    as [Hg2 Hdraw_a].
  rewrite Hdraw in Hdraw_a. injection Hdraw_a as Hrs Ha3.
  rewrite <- Hrs in Ha3.
  rewrite (LineBuilder_get_data_closed _ _ Hxs Hread) in Hdata.
  injection Hdata as <-.
  destruct (LineBuilder_get_source_inv _ _ Hsource)
    as (lo & hi & Hmin & Hmax & Ha2).
  cbn [_data _attr with_groups with_data] in Hmin, Hmax.
  rewrite Ha2 in Hrs.
  cbn [_source _data with_ranges with_source with_groups with_data] in Hrs.
  assert (_values_index b = Some xs) as Hxs_b by by rewrite <- Hxs_eq.
  assert (Forall (readable (_values b) xs) (series b)) as Hread_b
      by by rewrite <- Hvalues, <- Hseries.
  pose proof (LineBuilder_get_data_closed _ _ Hxs_b Hread_b) as Hdata_b.
  rewrite <- Hvalues, <- Hseries in Hdata_b.
  pose proof (LineBuilder_get_source_closed
                (with_groups (_groups b ++ series a)
                   (with_data
                      (line_columns (_values a) xs (series a) {["x" := xs]})
                      ("x" :: (String.append "y_" <$> series a)) b))
                lo hi Hmin Hmax) as Hsource_b.
  destruct (LineBuilder_draw_after_get_data _ _ _ Hdata_b Hsource_b)
    as [_ Hdraw_b].
  rewrite <- Hseries in Hdraw_b.
  cbn [_source _data with_ranges with_source with_groups with_data]
    in Hdraw_b.
  rewrite <- Hrs in Hdraw_b.
  do 3 eexists. exists rs.
  split; [exact Hdata_b|]. split; [exact Hsource_b|].
  split; [exact Hdraw_b|].
  rewrite Ha3, Ha2. by cbn.
Qed.

Lemma StepBuilder_hooks_again (a b a1 a2 a3 : Builder V)
      (rs : list GlyphRenderer) :
  same_input a b →
  StepBuilder_get_data a = Some a1 →
  StepBuilder_get_source a1 = Some a2 →
  StepBuilder_draw a2 = Some (rs, a3) →
  ∃ b1 b2 b3 new,
    StepBuilder_get_data b = Some b1 ∧
    StepBuilder_get_source b1 = Some b2 ∧
    StepBuilder_draw b2 = Some (rs, b3) ∧
    _data b3 = _data a3 ∧ _attr b3 = _attr a3 ∧
    x_range b3 = x_range a3 ∧ y_range b3 = y_range a3 ∧
    same_input a a3 ∧ same_input b b3 ∧
    _groups a3 = series a ∧
    _groups b3 = series a ∧
    _legends a3
    = _legends a ++ zip_with (λ g r, (g, [r])) (series a) new ∧
    _legends b3
    = _legends b ++ zip_with (λ g r, (g, [r])) (series a) new.
Proof.
  intros Hsame Hdata Hsource Hdraw.
  pose proof (same_input_series _ _ Hsame) as Hseries.
  destruct Hsame as (Hindex & Hvalues & Hxs_eq).
  destruct (StepBuilder_get_data_inv _ _ Hdata) as (xs & Hxs & Hread).
  pose proof (StepBuilder_draw_after_get_data _ _ _ Hdata Hsource)
    as [Hg2 Hdraw_a].
  rewrite Hdraw in Hdraw_a. injection Hdraw_a as Hrs Ha3.
  rewrite (StepBuilder_get_data_closed _ _ Hxs Hread) in Hdata.
  injection Hdata as <-.
  destruct (StepBuilder_get_source_inv _ _ Hsource)
    as (lo & hi & Hmin & Hmax & Ha2).
  cbn [_data _attr with_groups with_data] in Hmin, Hmax.
  rewrite Ha2 in Hrs, Ha3.
  cbn [_source _data with_ranges with_source with_groups with_data]
    in Hrs, Ha3.
  assert (_values_index b = Some xs) as Hxs_b by by rewrite <- Hxs_eq.
  assert (Forall (readable (_values b) xs) (series b)) as Hread_b
      by by rewrite <- Hvalues, <- Hseries.
  pose proof (StepBuilder_get_data_closed _ _ Hxs_b Hread_b) as Hdata_b.
  rewrite <- Hvalues, <- Hseries in Hdata_b.
  pose proof (StepBuilder_get_source_closed
                (with_groups (series a)
                   (with_data
                      (step_columns (_values a) xs (series a)
                         (<["x2" := Py.tail xs]> {["x" := Py.init xs]}))
                      ("x" :: "x2"
                           :: (series a
                               ≫= λ c, ["y1_" +:+ c; "y2_" +:+ c])) b))
                lo hi Hmin Hmax) as Hsource_b.
  destruct (StepBuilder_draw_after_get_data _ _ _ Hdata_b Hsource_b)
    as [_ Hdraw_b].
  rewrite <- Hseries in Hdraw_b.
  cbn [_source _data with_ranges with_source with_groups with_data]
    in Hdraw_b.
  rewrite <- Hrs in Hdraw_b.
  do 4 eexists.
  split; [exact Hdata_b|]. split; [exact Hsource_b|].
  split; [exact Hdraw_b|].
  rewrite Ha3. by cbn.
Qed.

(** ** Calling [create] a second time *)

(** C2, as the code has it: when [create] has returned and adapting the
    builder's values again gives the same index sequence and the same
    values, a second [create] on that builder returns too; the data, the
    attribute list and both ranges come out as the first call left them,
    and so does [_groups] for a [StepBuilder]; the legend list is not
    started afresh: the second call appends to it the entries that the
    first call had appended. *)
Theorem create_again_keeps_legends
        (self s1 : Builder V) (chart chart1 chart' : Chart) (xs : list Q) :
  get_index_and_data (_values s1) (index s1) = Some (xs, _values s1) →
  _values_index s1 = Some xs →
  (create LineBuilder self chart = Some (s1, chart1) →
   ∃ s2 chart2 new,
     create LineBuilder s1 chart' = Some (s2, chart2) ∧
     _data s2 = _data s1 ∧
     _attr s2 = _attr s1 ∧
     x_range s2 = x_range s1 ∧
     y_range s2 = y_range s1 ∧
     _legends s1 = _legends self ++ new ∧
     _legends s2 = _legends s1 ++ new) ∧
  (create StepBuilder self chart = Some (s1, chart1) →
   ∃ s2 chart2 new,
     create StepBuilder s1 chart' = Some (s2, chart2) ∧
     _data s2 = _data s1 ∧
     _attr s2 = _attr s1 ∧
     x_range s2 = x_range s1 ∧
     y_range s2 = y_range s1 ∧
     _groups s2 = _groups s1 ∧
     _legends s1 = _legends self ++ new ∧
     _legends s2 = _legends s1 ++ new).
Proof.
  intros Hadapt Hxs.
  set (p2 := with_values (Some xs) (_values s1) s1).
  assert (prepare_values s1 = Some p2) as Hp2.
  { unfold prepare_values. by rewrite Hadapt. }
  assert (∀ p1, prepare_values self = Some p1 → _legends p1 = _legends self)
    as Hprepared.
  { intros p1 Hp1. unfold prepare_values in Hp1.
    destruct (get_index_and_data (_values self) (index self))
      as [[??]|]; [|done].
    cbn in Hp1. by injection Hp1 as <-. }
  assert (∀ p1, same_input p1 s1 → same_input p1 p2) as Hp12.
  { intros p1 (Hi & Hv & Hx). subst p2. repeat split; cbn; congruence. }
  split; intros Hcreate; unfold create in *; rewrite Hp2;
    cbn [mbind option_bind];
    destruct (prepare_values self) as [p1|] eqn:Hp1; try done;
    cbn [mbind option_bind] in Hcreate.
  - change (get_data LineBuilder) with (LineBuilder_get_data (V:=V)) in *.
    change (get_source LineBuilder) with (LineBuilder_get_source (V:=V)) in *.
    change (draw LineBuilder) with (LineBuilder_draw (V:=V)) in *.
    destruct (LineBuilder_get_data p1) as [d1|] eqn:Hd1; [|done].
    cbn [mbind option_bind] in Hcreate.
    destruct (LineBuilder_get_source d1) as [g1|] eqn:Hg1; [|done].
    cbn [mbind option_bind] in Hcreate.
    destruct (LineBuilder_draw g1) as [[rs s1']|] eqn:Hdraw1; [|done].
    cbn [mbind option_bind] in Hcreate. injection Hcreate as -> _.
    assert (same_input p1 s1) as H1
        by by destruct (LineBuilder_hooks_again p1 p1 _ _ _ _
                          ltac:(done) Hd1 Hg1 Hdraw1)
            as (? & ? & ? & ? & ? & ? & ? & ? & ? & ? & ? & ? & ?).
    destruct (LineBuilder_hooks_again p1 p2 _ _ _ _ (Hp12 _ H1) Hd1 Hg1 Hdraw1)
      as (b1 & b2 & b3 & new & Hd2 & Hg2 & Hdraw2 & Hdata & Hattr & Hxr &
          Hyr & _ & _ & Hga & Hgb & Hla & Hlb).
    rewrite Hd2. cbn [mbind option_bind].
    rewrite Hg2. cbn [mbind option_bind].
    rewrite Hdraw2. cbn [mbind option_bind _legends].
    do 2 eexists.
    exists (zip_with (λ g r, (g, [r]))
              (take (length (series p1)) (_groups p1 ++ series p1)) new).
    split; [reflexivity|]. repeat split; try done.
    + by rewrite Hla, (Hprepared p1).
    + rewrite Hlb. subst p2. cbn [_legends _groups with_values].
      rewrite Hga.
      by rewrite (take_app_le (_groups p1 ++ series p1))
        by (rewrite length_app; lia).
  - change (get_data StepBuilder) with (StepBuilder_get_data (V:=V)) in *.
    change (get_source StepBuilder) with (StepBuilder_get_source (V:=V)) in *.
    change (draw StepBuilder) with (StepBuilder_draw (V:=V)) in *.
    destruct (StepBuilder_get_data p1) as [d1|] eqn:Hd1; [|done].
    cbn [mbind option_bind] in Hcreate.
    destruct (StepBuilder_get_source d1) as [g1|] eqn:Hg1; [|done].
    cbn [mbind option_bind] in Hcreate.
    destruct (StepBuilder_draw g1) as [[rs s1']|] eqn:Hdraw1; [|done].
    cbn [mbind option_bind] in Hcreate. injection Hcreate as -> _.
    assert (same_input p1 s1) as H1
        by by destruct (StepBuilder_hooks_again p1 p1 _ _ _ _
                          ltac:(done) Hd1 Hg1 Hdraw1)
            as (? & ? & ? & ? & ? & ? & ? & ? & ? & ? & ? & ? & ?).
    destruct (StepBuilder_hooks_again p1 p2 _ _ _ _ (Hp12 _ H1) Hd1 Hg1 Hdraw1)
      as (b1 & b2 & b3 & new & Hd2 & Hg2 & Hdraw2 & Hdata & Hattr & Hxr &
          Hyr & _ & _ & Hga & Hgb & Hla & Hlb).
    rewrite Hd2. cbn [mbind option_bind].
    rewrite Hg2. cbn [mbind option_bind].
    rewrite Hdraw2. cbn [mbind option_bind _legends].
    do 2 eexists. exists (zip_with (λ g r, (g, [r])) (series p1) new).
    split; [reflexivity|]. repeat split; try done.
    + by rewrite Hga, Hgb.
    + by rewrite Hla, (Hprepared p1).
Qed.

(** ** The padded range *)

Lemma Py_max_fold (t : list Q) (m0 : Q) :
  let r := fold_left (λ m y, if Py.ltb m y then y else m) t m0 in
  (r = m0 ∨ r ∈ t) ∧ (m0 <= r)%Q ∧ ∀ y, y ∈ t → (y <= r)%Q.
Proof.
  revert m0. induction t as [|x t IH]; intros m0; cbn.
  - split; [by left|]. split; [apply Qle_refl|]. intros y Hy.
    by apply elem_of_nil in Hy.
  - destruct (IH (if Py.ltb m0 x then x else m0)) as (Hin & Hle & Hall).
    assert ((m0 <= (if Py.ltb m0 x then x else m0))%Q ∧
            (x <= (if Py.ltb m0 x then x else m0))%Q) as [Hm0 Hx].
    { unfold Py.ltb. destruct (Qle_bool x m0) eqn:E; cbn.
      - split; [apply Qle_refl|by apply Qle_bool_iff].
      - split; [|apply Qle_refl]. apply Qlt_le_weak, Qnot_le_lt.
        intros Hle'. apply Qle_bool_iff in Hle'. congruence. }
    split; [|split].
    + destruct Hin as [Hin|Hin]; [|right; by right].
      rewrite Hin. destruct (Py.ltb m0 x); [right; by left|by left].
    + by eapply Qle_trans.
    + intros y Hy. apply elem_of_cons in Hy as [->|Hy]; [|by apply Hall].
      by eapply Qle_trans.
Qed.

Lemma Py_min_fold (t : list Q) (m0 : Q) :
  let r := fold_left (λ m y, if Py.ltb y m then y else m) t m0 in
  (r = m0 ∨ r ∈ t) ∧ (r <= m0)%Q ∧ ∀ y, y ∈ t → (r <= y)%Q.
Proof.
  revert m0. induction t as [|x t IH]; intros m0; cbn.
  - split; [by left|]. split; [apply Qle_refl|]. intros y Hy.
    by apply elem_of_nil in Hy.
  - destruct (IH (if Py.ltb x m0 then x else m0)) as (Hin & Hle & Hall).
    assert (((if Py.ltb x m0 then x else m0) <= m0)%Q ∧
            ((if Py.ltb x m0 then x else m0) <= x)%Q) as [Hm0 Hx].
    { unfold Py.ltb. destruct (Qle_bool m0 x) eqn:E; cbn.
      - split; [apply Qle_refl|by apply Qle_bool_iff].
      - split; [|apply Qle_refl]. apply Qlt_le_weak, Qnot_le_lt.
        intros Hle'. apply Qle_bool_iff in Hle'. congruence. }
    split; [|split].
    + destruct Hin as [Hin|Hin]; [|right; by right].
      rewrite Hin. destruct (Py.ltb x m0); [right; by left|by left].
    + by eapply Qle_trans.
    + intros y Hy. apply elem_of_cons in Hy as [->|Hy]; [|by apply Hall].
      by eapply Qle_trans.
Qed.

Lemma Py_max_spec (l : list Q) (m : Q) :
  Py.max l = Some m → m ∈ l ∧ ∀ y, y ∈ l → (y <= m)%Q.
Proof.
  destruct l as [|x t]; [done|]. intros [= <-].
  destruct (Py_max_fold t x) as (Hin & Hle & Hall). split.
  - destruct Hin as [-> | Hin]; [by left|by right].
  - intros y Hy. apply elem_of_cons in Hy as [->|Hy]; [done|by apply Hall].
Qed.

Lemma Py_min_spec (l : list Q) (m : Q) :
  Py.min l = Some m → m ∈ l ∧ ∀ y, y ∈ l → (m <= y)%Q.
Proof.
  destruct l as [|x t]; [done|]. intros [= <-].
  destruct (Py_min_fold t x) as (Hin & Hle & Hall). split.
  - destruct Hin as [-> | Hin]; [by left|by right].
  - intros y Hy. apply elem_of_cons in Hy as [->|Hy]; [done|by apply Hall].
Qed.

(** [max_of_columns] returns an item of one of the named columns that no
    item of any named column exceeds; every named column is there and none
    is empty. *)
Lemma max_of_columns_spec (data : gmap string (list Q))
      (names : list string) (hi : Q) :
  max_of_columns data names = Some hi →
  (∃ i col, i ∈ names ∧ data !! i = Some col ∧ hi ∈ col) ∧
  (∀ i, i ∈ names →
        ∃ col, data !! i = Some col ∧ col ≠ [] ∧
               ∀ y, y ∈ col → (y <= hi)%Q).
Proof.
  unfold max_of_columns.
  destruct (mapM _ names) as [ms|] eqn:Hms; [cbn|done]. intros Hmax.
  apply mapM_Some in Hms. apply Py_max_spec in Hmax as [Hin Hall].
  split.
  - apply list_elem_of_lookup in Hin as [j Hj].
    destruct (Forall2_lookup_r _ _ _ _ _ Hms Hj) as (i & Hi & Hcol).
    destruct (data !! i) as [col|] eqn:Hdata; [cbn in Hcol|done].
    exists i, col. split; [by eapply list_elem_of_lookup_2|].
    split; [done|]. by apply Py_max_spec in Hcol as [? _].
  - intros i Hi. apply list_elem_of_lookup in Hi as [j Hj].
    destruct (Forall2_lookup_l _ _ _ _ _ Hms Hj) as (m & Hm & Hcol).
    destruct (data !! i) as [col|] eqn:Hdata; [cbn in Hcol|done].
    exists col. split; [done|]. split; [by intros ->|].
    intros y Hy. apply Py_max_spec in Hcol as [_ Hcol].
    eapply Qle_trans; [by apply Hcol|].
    apply Hall. by eapply list_elem_of_lookup_2.
Qed.

Lemma min_of_columns_spec (data : gmap string (list Q))
      (names : list string) (lo : Q) :
  min_of_columns data names = Some lo →
  (∃ i col, i ∈ names ∧ data !! i = Some col ∧ lo ∈ col) ∧
  (∀ i, i ∈ names →
        ∃ col, data !! i = Some col ∧ col ≠ [] ∧
               ∀ y, y ∈ col → (lo <= y)%Q).
Proof.
  unfold min_of_columns.
  destruct (mapM _ names) as [ms|] eqn:Hms; [cbn|done]. intros Hmin.
  apply mapM_Some in Hms. apply Py_min_spec in Hmin as [Hin Hall].
  split.
  - apply list_elem_of_lookup in Hin as [j Hj].
    destruct (Forall2_lookup_r _ _ _ _ _ Hms Hj) as (i & Hi & Hcol).
    destruct (data !! i) as [col|] eqn:Hdata; [cbn in Hcol|done].
    exists i, col. split; [by eapply list_elem_of_lookup_2|].
    split; [done|]. by apply Py_min_spec in Hcol as [? _].
  - intros i Hi. apply list_elem_of_lookup in Hi as [j Hj].
    destruct (Forall2_lookup_l _ _ _ _ _ Hms Hj) as (m & Hm & Hcol).
    destruct (data !! i) as [col|] eqn:Hdata; [cbn in Hcol|done].
    exists col. split; [done|]. split; [by intros ->|].
    intros y Hy. apply Py_min_spec in Hcol as [_ Hcol].
    eapply Qle_trans; [|by apply Hcol].
    apply Hall. by eapply list_elem_of_lookup_2.
Qed.

(** What [get_source] of either builder computes: the least and the
    greatest item over the columns named by [self._attr[1:]], padded. *)
Lemma get_source_y_range (self s2 : Builder V) :
  LineBuilder_get_source self = Some s2 ∨
  StepBuilder_get_source self = Some s2 →
  ∃ starty endy,
    min_of_columns (_data self) (drop 1 (_attr self)) = Some starty ∧
    max_of_columns (_data self) (drop 1 (_attr self)) = Some endy ∧
    y_range s2 = Some (padded_range starty endy) ∧
    (starty <= endy)%Q.
Proof.
  intros Hsource.
  assert (∃ starty endy,
    min_of_columns (_data self) (drop 1 (_attr self)) = Some starty ∧
    max_of_columns (_data self) (drop 1 (_attr self)) = Some endy ∧
    y_range s2 = Some (padded_range starty endy)) as (lo & hi & Hmin & Hmax & Hy).
  { destruct Hsource as [H|H];
      [apply LineBuilder_get_source_inv in H
      |apply StepBuilder_get_source_inv in H];
      destruct H as (lo & hi & Hmin & Hmax & ->); by exists lo, hi. }
  exists lo, hi. repeat split; try done.
  destruct (min_of_columns_spec _ _ _ Hmin) as [(i & col & Hi & Hcol & Hlo) _].
  destruct (max_of_columns_spec _ _ _ Hmax) as [_ Hall].
  destruct (Hall i Hi) as (col' & Hcol' & _ & Hle).
  rewrite Hcol in Hcol'. injection Hcol' as <-. by apply Hle.
Qed.

(** For a line chart the named columns are the [y_] columns, one per
    series: the range is the span of all the series' values, padded. *)
Lemma LineBuilder_y_range (self s1 s2 : Builder V) :
  LineBuilder_get_data self = Some s1 →
  LineBuilder_get_source s1 = Some s2 →
  ∃ xs starty endy,
    _values_index self = Some xs ∧
    y_range s2 = Some (padded_range starty endy) ∧
    (∃ s, s ∈ series self ∧ starty ∈ column_of (_values self) xs s) ∧
    (∃ s, s ∈ series self ∧ endy ∈ column_of (_values self) xs s) ∧
    (∀ s y, s ∈ series self → y ∈ column_of (_values self) xs s →
            (starty <= y)%Q ∧ (y <= endy)%Q).
Proof.
  intros Hdata Hsource.
  destruct (LineBuilder_get_data_inv _ _ Hdata) as (xs & Hxs & Hread).
  rewrite (LineBuilder_get_data_closed _ _ Hxs Hread) in Hdata.
  injection Hdata as <-.
  destruct (get_source_y_range _ _ (or_introl Hsource))
    as (lo & hi & Hmin & Hmax & Hy & _).
  cbn [_data _attr with_groups with_data drop] in Hmin, Hmax.
  rewrite ?drop_0 in Hmin, Hmax.
  destruct (min_of_columns_spec _ _ _ Hmin)
    as [(i & col & Hi & Hcol & Hlo) Hall_lo].
  destruct (max_of_columns_spec _ _ _ Hmax)
    as [(i' & col' & Hi' & Hcol' & Hhi) Hall_hi].
  apply list_elem_of_fmap in Hi as (s & -> & Hs).
  apply list_elem_of_fmap in Hi' as (s' & -> & Hs').
  rewrite line_columns_series in Hcol, Hcol' by done.
  injection Hcol as <-. injection Hcol' as <-.
  exists xs, lo, hi. split; [done|]. split; [done|].
  split; [by exists s|]. split; [by exists s'|].
  intros t y Ht Hyt.
  assert ("y_" +:+ t ∈ String.append "y_" <$> series self) as Hname
      by (apply list_elem_of_fmap; by exists t).
  destruct (Hall_lo _ Hname) as (c & Hc & _ & Hle_lo).
  destruct (Hall_hi _ Hname) as (c' & Hc' & _ & Hle_hi).
  rewrite line_columns_series in Hc, Hc' by done.
  injection Hc as <-. injection Hc' as <-. split; auto.
Qed.

(** For a step chart the named columns start with [x2]: the greatest item
    of the range computation is at least every item of [I[1:]]. *)
Lemma StepBuilder_y_range_reads_x2 (self s1 s2 : Builder V) :
  StepBuilder_get_data self = Some s1 →
  StepBuilder_get_source s1 = Some s2 →
  ∃ xs starty endy,
    _values_index self = Some xs ∧
    y_range s2 = Some (padded_range starty endy) ∧
    Py.tail xs ≠ [] ∧
    ∀ x, x ∈ Py.tail xs → (starty <= x)%Q ∧ (x <= endy)%Q.
Proof.
  intros Hdata Hsource.
  destruct (StepBuilder_get_data_inv _ _ Hdata) as (xs & Hxs & Hread).
  rewrite (StepBuilder_get_data_closed _ _ Hxs Hread) in Hdata.
  injection Hdata as <-.
  destruct (get_source_y_range _ _ (or_intror Hsource))
    as (lo & hi & Hmin & Hmax & Hy & _).
  cbn [_data _attr with_groups with_data drop] in Hmin, Hmax.
  rewrite ?drop_0 in Hmin, Hmax.
  destruct (min_of_columns_spec _ _ _ Hmin) as [_ Hall_lo].
  destruct (max_of_columns_spec _ _ _ Hmax) as [_ Hall_hi].
  destruct (Hall_lo "x2") as (c & Hc & Hne & Hle_lo); [by left|].
  destruct (Hall_hi "x2") as (c' & Hc' & _ & Hle_hi); [by left|].
  rewrite step_columns_other in Hc, Hc' by done.
  rewrite lookup_insert_eq in Hc, Hc'.
  injection Hc as <-. injection Hc' as <-.
  exists xs, lo, hi. split; [done|]. split; [done|]. split; [done|].
  intros x Hx. split; auto.
Qed.

(** ** What the constructors do with [index] *)

(** [LineBuilder.__init__] binds the keyword [index] to its own parameter
    and hands only the remaining keywords on, so the property keeps its
    default whatever the caller passed. *)
Lemma LineBuilder_init_drops_index (values : option V)
      (kws : gmap string PyVal) :
  index (LineBuilder_init values kws) = PyNone.
Proof.
  unfold LineBuilder_init. cbn.
  by rewrite lookup_delete_ne, lookup_delete_ne, lookup_delete_eq.
Qed.

(** [StepBuilder.__init__] hands every keyword on. *)
Lemma StepBuilder_init_keeps_index (values : option V)
      (kws : gmap string PyVal) (v : PyVal) :
  kws !! "index" = Some v →
  index (StepBuilder_init values kws) = v.
Proof. intros Hv. unfold StepBuilder_init. cbn. by rewrite Hv. Qed.

End Builder_properties.

(** * The example scenarios, on tables *)

(** ** The naming helper and [create] at concrete inputs *)

Lemma set_and_get_overwrites_and_appends_witness :
  let self := Builder_init (V := Table) None ∅ in
  let self1 := set_and_get "y_" "a" [1%Q] self in
  let self2 := set_and_get "y_" "a" [2%Q] self1 in
  _data self2 !! "y_a" = Some [2%Q] ∧
  _attr self2 = ["y_a"; "y_a"] ∧
  size (_data self2) < length (_attr self2).
Proof.
  intros self self1 self2.
  destruct (set_and_get_overwrites_and_appends "y_" "a" [1%Q] [2%Q] self)
    as (_ & _ & _ & _ & Hlookup & Hattr & _ & Hlonger).
  split; [exact Hlookup|]. split; [exact Hattr|].
  apply Hlonger. vm_compute. lia.
Defined.

Lemma create_first_writer_wins_witness :
  let s := created StepBuilder step_example empty_chart in
  let chart := charted StepBuilder step_example empty_chart in
  create StepBuilder step_example empty_chart = Some (s, chart) ∧
  chart_x_range chart = x_range s ∧
  chart_y_range chart = Some (Range1d 0.2 9.8) ∧
  chart_legends chart = _legends s.
Proof.
  intros s chart.
  assert (create StepBuilder step_example empty_chart = Some (s, chart))
    as Hcreate by (vm_compute; reflexivity).
  destruct (create_first_writer_wins _ _ _ _ _ Hcreate)
    as (Hx & Hy & Hlegends & _).
  split; [exact Hcreate|]. split; [exact Hx|].
  split; [rewrite Hy; vm_compute; reflexivity|exact Hlegends].
Defined.

Lemma create_and_build_splits_keywords_witness :
  let kws : gmap string PyVal :=
    {[ "index" := PyStr "x"; "legend" := PyBool true ]} in
  builder_kws (properties (LineBuilder (V := Table))) kws !! "index"
  = Some (PyStr "x") ∧
  chart_kws_of (properties (LineBuilder (V := Table))) kws !! "index" = None ∧
  chart_kws_of (properties (LineBuilder (V := Table))) kws !! "legend"
  = Some (PyBool true) ∧
  builder_kws (properties (LineBuilder (V := Table))) kws !! "legend" = None.
Proof.
  intros kws.
  destruct (create_and_build_splits_keywords
              (LineBuilder (V := Table)) example_values kws)
    as (_ & Hroute & _ & _ & Hlegend).
  destruct (Hroute "index" (PyStr "x")) as [(_ & Hb & Hc)|(Hout & _)];
    [vm_compute; reflexivity| |].
  - destruct (Hlegend "legend") as (Hc' & Hb' & _); [by left|].
    split; [exact Hb|]. split; [exact Hc|].
    split; [rewrite Hc'; vm_compute; reflexivity|exact Hb'].
  - exfalso. apply Hout. apply (bool_decide_unpack _). vm_compute. exact I.
Defined.

(** ** The step scenario *)

Lemma StepBuilder_get_data_columns_witness :
  ∃ self',
    StepBuilder_get_data
      (prepared step_labelled) = Some self' ∧
    _attr self' = ["x"; "x2"; "y1_a"; "y2_a"; "y1_b"; "y2_b"] ∧
    _data self' !! "x" = Some [1; 2]%Q ∧
    _data self' !! "x2" = Some [2; 3]%Q ∧
    _data self' !! "y1_a" = Some [1; 4]%Q ∧
    _data self' !! "y2_a" = Some [4; 9]%Q ∧
    _data self' !! "y1_b" = Some [2; 3]%Q ∧
    _data self' !! "y2_b" = Some [3; 5]%Q.
Proof.
  destruct (StepBuilder_get_data_columns
              (prepared step_labelled)
              [1; 2; 3]%Q
              (λ s, if bool_decide (s = "a") then [1; 4; 9]%Q
                    else [2; 3; 5]%Q))
    as (self' & Hdata & Hattr & Hx & Hx2 & Hy & _).
  - reflexivity.
  - intros s Hs. vm_compute in Hs.
    apply elem_of_cons in Hs as [->|Hs]; [reflexivity|].
    apply list_elem_of_singleton in Hs as ->. reflexivity.
  - exists self'. split; [exact Hdata|]. split; [exact Hattr|].
    split; [exact Hx|]. split; [exact Hx2|].
    destruct (Hy "a") as [Ha1 Ha2]; [vm_compute; by left|].
    destruct (Hy "b") as [Hb1 Hb2]; [vm_compute; right; by left|].
    by repeat split.
Defined.

Lemma draw_renderers_per_series_witness :
  (∃ rs s3,
     LineBuilder_draw (got_source LineBuilder line_positional)
     = Some (rs, s3) ∧
     length rs = 2) ∧
  (∃ rs s3,
     StepBuilder_draw (got_source StepBuilder step_zero_based)
     = Some (rs, s3) ∧
     length rs = 4).
Proof.
  split.
  - destruct (draw_renderers_per_series
                (prepared line_positional)
                (got_data LineBuilder line_positional)
                (got_source LineBuilder line_positional))
      as [Hline _].
    destruct Hline as (rs & s3 & Hdraw & Hlen & _);
      [vm_compute; reflexivity..|].
    exists rs, s3. split; [exact Hdraw|]. rewrite Hlen. reflexivity.
  - destruct (draw_renderers_per_series
                (prepared step_zero_based)
                (got_data StepBuilder step_zero_based)
                (got_source StepBuilder step_zero_based))
      as [_ Hstep].
    destruct Hstep as (rs & s3 & Hdraw & Hlen & _);
      [vm_compute; reflexivity..|].
    exists rs, s3. split; [exact Hdraw|]. rewrite Hlen. reflexivity.
Defined.

Lemma legends_follow_groups_witness :
  (∃ rs s3,
     LineBuilder_draw (got_source LineBuilder line_example) = Some (rs, s3) ∧
     (_legends s3).*1 = ["a"; "b"] ∧ _groups s3 = ["a"; "b"]) ∧
  (∃ rs s3,
     StepBuilder_draw (got_source StepBuilder step_example) = Some (rs, s3) ∧
     (_legends s3).*1 = ["a"; "b"] ∧ _groups s3 = ["a"; "b"]).
Proof.
  split.
  - assert (_legends (prepared line_example) = []) as Hfresh
        by (vm_compute; reflexivity).
    destruct (legends_follow_groups
                (prepared line_example) (got_data LineBuilder line_example)
                (got_source LineBuilder line_example) Hfresh)
      as [Hline _].
    destruct Hline as (rs & s3 & Hdraw & Hnames & Hgroups & _);
      [vm_compute; reflexivity..|].
    exists rs, s3. split; [exact Hdraw|]. rewrite Hnames, Hgroups.
    split; reflexivity.
  - assert (_legends (prepared step_example) = []) as Hfresh
        by (vm_compute; reflexivity).
    destruct (legends_follow_groups
                (prepared step_example) (got_data StepBuilder step_example)
                (got_source StepBuilder step_example) Hfresh)
      as [_ Hstep].
    destruct Hstep as (rs & s3 & Hdraw & Hnames & Hgroups & _);
      [vm_compute; reflexivity..|].
    exists rs, s3. split; [exact Hdraw|]. rewrite Hnames, Hgroups.
    split; reflexivity.
Defined.

(** ** Calling [create] twice *)

(** C2, where the claim fails: [StepBuilder(values, index=[0, 1, 2])] over
    the two series [a] and [b]; the index counts the rows from zero, so
    each index value is the position of the row it labels.  The first
    [create] leaves the two legend entries [a], [b]; the second [create]
    on the same builder returns as well and leaves the four entries [a],
    [b], [a], [b], while [_groups] is [a], [b] after either call: the
    legend list after the second call is not the one a single call
    produces. *)
Lemma create_twice_accumulates_legends :
  let s1 := created StepBuilder step_zero_based empty_chart in
  let s2 := created StepBuilder s1 empty_chart in
  create StepBuilder step_zero_based empty_chart
  = Some (s1, charted StepBuilder step_zero_based empty_chart) ∧
  create StepBuilder s1 empty_chart
  = Some (s2, charted StepBuilder s1 empty_chart) ∧
  _values_index s1 = Some [0; 1; 2]%Q ∧
  _data s2 = _data s1 ∧
  _groups s1 = ["a"; "b"] ∧
  _groups s2 = ["a"; "b"] ∧
  (_legends s1).*1 = ["a"; "b"] ∧
  (_legends s2).*1 = ["a"; "b"; "a"; "b"] ∧
  _legends s2 ≠ _legends s1.
Proof.
  intros s1 s2.
  assert ((_legends s1).*1 = ["a"; "b"]) as H1 by (vm_compute; reflexivity).
  assert ((_legends s2).*1 = ["a"; "b"; "a"; "b"]) as H2
      by (vm_compute; reflexivity).
  split; [vm_compute; reflexivity|]. split; [vm_compute; reflexivity|].
  split; [vm_compute; reflexivity|]. split; [vm_compute; reflexivity|].
  split; [vm_compute; reflexivity|]. split; [vm_compute; reflexivity|].
  split; [exact H1|]. split; [exact H2|].
  intros Heq. rewrite Heq, H1 in H2. discriminate H2.
Qed.

(** The same two calls on a [LineBuilder]: its [_groups] list is not started
    afresh either. *)
Lemma LineBuilder_create_twice_accumulates_groups :
  let s1 := created LineBuilder line_positional empty_chart in
  let s2 := created LineBuilder s1 empty_chart in
  create LineBuilder s1 empty_chart
  = Some (s2, charted LineBuilder s1 empty_chart) ∧
  _groups s1 = ["a"; "b"] ∧
  _groups s2 = ["a"; "b"; "a"; "b"] ∧
  _groups (created StepBuilder
             (created StepBuilder step_zero_based empty_chart) empty_chart)
  = ["a"; "b"].
Proof.
  intros s1 s2.
  split; [vm_compute; reflexivity|]. split; [vm_compute; reflexivity|].
  split; vm_compute; reflexivity.
Qed.

Lemma create_again_keeps_legends_witness :
  let s1 := created StepBuilder step_zero_based empty_chart in
  ∃ s2 chart2 new,
    create StepBuilder s1 empty_chart = Some (s2, chart2) ∧
    _data s2 = _data s1 ∧
    _groups s2 = _groups s1 ∧
    _legends s1 = new ∧
    _legends s2 = _legends s1 ++ new.
Proof.
  intros s1.
  destruct (create_again_keeps_legends
              step_zero_based s1 empty_chart
              (charted StepBuilder step_zero_based empty_chart) empty_chart
              [0; 1; 2]%Q)
    as [_ Hstep]; [vm_compute; reflexivity..|].
  destruct Hstep as (s2 & chart2 & new & Hcreate & Hdata & _ & _ & _ &
                     Hgroups & Hfirst & Hsecond);
    [vm_compute; reflexivity|].
  exists s2, chart2, new.
  split; [exact Hcreate|]. split; [exact Hdata|]. split; [exact Hgroups|].
  split; [exact Hfirst|exact Hsecond].
Defined.

(** ** The range of a step chart *)

(** C1, where the code departs from the claim: the step chart
    [Step(values, index="x")] over the index column [x = 0, 1, 2] and
    the series [a = -8, -4, -1].  The index counts the rows from zero, so
    the series read along it is the column as it stands.  The y-columns
    are [y1_a = -8, -4] and [y2_a = -4, -1]; their least item is -8 and
    their greatest -1, and the claim's range is the padding of these two.
    [get_source] takes the extremes over [x2 = 1, 2] as well: the
    greatest item it finds is 2, an index value, and the range it
    returns runs from -9 to 3, whose end lies above every value of the
    series and is not the padded end of the y-columns. *)
Theorem StepBuilder_y_range_reads_the_index :
  let s := created StepBuilder step_low empty_chart in
  Step low_values (PyStr "x") ∅
  = Some (s, charted StepBuilder step_low empty_chart) ∧
  _values_index s = Some [0; 1; 2]%Q ∧
  _attr s = ["x"; "x2"; "y1_a"; "y2_a"] ∧
  _data s !! "x" = Some [0; 1]%Q ∧
  _data s !! "x2" = Some [1; 2]%Q ∧
  _data s !! "y1_a" = Some [-8; -4]%Q ∧
  _data s !! "y2_a" = Some [-4; -1]%Q ∧
  min_of_columns (_data s) ["y1_a"; "y2_a"] = Some (-8)%Q ∧
  max_of_columns (_data s) ["y1_a"; "y2_a"] = Some (-1)%Q ∧
  min_of_columns (_data s) (drop 1 (_attr s)) = Some (-8)%Q ∧
  max_of_columns (_data s) (drop 1 (_attr s)) = Some 2%Q ∧
  y_range s = Some (padded_range (-8) 2) ∧
  y_range s = Some (Range1d (-9.0) 3.0) ∧
  y_range s ≠ Some (padded_range (-8) (-1)).
Proof.
  intros s.
  assert (y_range s = Some (Range1d (-9.0) 3.0)) as Hrange
      by (vm_compute; reflexivity).
  split; [vm_compute; reflexivity|].
  do 10 (split; [vm_compute; reflexivity|]).
  split; [vm_compute; reflexivity|].
  split; [exact Hrange|].
  rewrite Hrange. vm_compute. intros Heq. discriminate Heq.
Qed.

(** ** The line scenario *)

(** C6, where the code departs from the claim: [Line(values, index="x")]
    on the example table.  The constructor does not keep the index, so the
    builder falls back on the positional index: [x] is [0, 1, 2], the
    column [x] of the table is drawn as a third series, three renderers
    are yielded and the legend names are [x], [a], [b]. *)
Theorem Line_example_loses_the_index :
  let s := created LineBuilder line_constructed empty_chart in
  let chart := charted LineBuilder line_constructed empty_chart in
  Line example_values (PyStr "x") ∅ = Some (s, chart) ∧
  index s = PyNone ∧
  _attr s = ["x"; "y_x"; "y_a"; "y_b"] ∧
  _data s !! "x" = Some [0; 1; 2]%Q ∧
  _data s !! "y_x" = Some [1; 2; 3]%Q ∧
  _data s !! "y_a" = Some [1; 4; 9]%Q ∧
  _data s !! "y_b" = Some [2; 3; 5]%Q ∧
  y_range s = Some (Range1d 0.2 9.8) ∧
  length (chart_renderers chart) = 3 ∧
  (_legends s).*1 = ["x"; "a"; "b"].
Proof.
  intros s chart.
  split; [vm_compute; reflexivity|].
  repeat (split; [vm_compute; reflexivity|]).
  vm_compute; reflexivity.
Qed.

(** C7, where the code departs from the claim: [Line(values, index="x")]
    on the example table.  The keys of the table other than the index
    column are [a] and [b], so the claim's count for a line chart is two.
    The constructor does not keep the index (the defect met under C6),
    [get_data] keeps the column [x] as a series of its own, and [draw]
    yields three renderers: lines over [y_x], [y_a] and [y_b], in that
    order. *)
Theorem Line_draws_its_index_column :
  let s := created LineBuilder line_constructed empty_chart in
  let chart := charted LineBuilder line_constructed empty_chart in
  Line example_values (PyStr "x") ∅ = Some (s, chart) ∧
  filter (λ col, col ≠ "x") (keys example_values) = ["a"; "b"] ∧
  series (prepared line_constructed) = ["x"; "a"; "b"] ∧
  _groups s = ["x"; "a"; "b"] ∧
  LineBuilder_draw (got_source LineBuilder line_constructed)
  = Some (chart_renderers chart, s) ∧
  length (chart_renderers chart) = 3 ∧
  glyph <$> chart_renderers chart
  = [LineGlyph "x" "y_x" "#f22c40"; LineGlyph "x" "y_a" "#5ab738";
     LineGlyph "x" "y_b" "#407ee7"].
Proof.
  intros s chart.
  split; [vm_compute; reflexivity|].
  do 5 (split; [vm_compute; reflexivity|]).
  vm_compute; reflexivity.
Qed.

(** With [index] assigned on the instance after construction, the three
    hooks give what the scenario expects. *)
Lemma LineBuilder_example_with_index_assigned :
  let s := created LineBuilder line_example empty_chart in
  let chart := charted LineBuilder line_example empty_chart in
  create LineBuilder line_example empty_chart = Some (s, chart) ∧
  _attr s = ["x"; "y_a"; "y_b"] ∧
  _data s !! "x" = Some [1; 2; 3]%Q ∧
  _data s !! "y_a" = Some [1; 4; 9]%Q ∧
  _data s !! "y_b" = Some [2; 3; 5]%Q ∧
  size (_data s) = 3 ∧
  y_range s = Some (Range1d 0.2 9.8) ∧
  length (chart_renderers chart) = 2 ∧
  (_legends s).*1 = ["a"; "b"].
Proof.
  intros s chart.
  split; [vm_compute; reflexivity|].
  repeat (split; [vm_compute; reflexivity|]).
  vm_compute; reflexivity.
Qed.

(** The step scenario of the specification, end to end. *)
Lemma StepBuilder_example :
  let s := created StepBuilder step_example empty_chart in
  let chart := charted StepBuilder step_example empty_chart in
  Step example_values (PyStr "x") ∅ = Some (s, chart) ∧
  _attr s = ["x"; "x2"; "y1_a"; "y2_a"; "y1_b"; "y2_b"] ∧
  _data s !! "x" = Some [1; 2]%Q ∧
  _data s !! "x2" = Some [2; 3]%Q ∧
  _data s !! "y1_a" = Some [1; 4]%Q ∧
  _data s !! "y2_a" = Some [4; 9]%Q ∧
  _data s !! "y1_b" = Some [2; 3]%Q ∧
  _data s !! "y2_b" = Some [3; 5]%Q ∧
  length (chart_renderers chart) = 4 ∧
  (_legends s).*1 = ["a"; "b"].
Proof.
  intros s chart.
  split; [vm_compute; reflexivity|].
  repeat (split; [vm_compute; reflexivity|]).
  vm_compute; reflexivity.
Qed.

(** * Further properties of the builders *)

Section More_properties.

Context {V : Type} `{DA : DataAdapter V}.

(** ** The columns of a line chart *)

(** X1: for a builder whose index sequence is [I] and whose series [s] read
    along [I] give the values [v s], [LineBuilder.get_data] returns; it has
    created the attribute [x] and then one [y_s] per series, in series
    order; [x] holds [I] and [y_s] holds [v s]; the data has no other
    column and every column has [len(I)] items; the series names are
    appended to the [_groups] the builder already had. *)
Theorem LineBuilder_get_data_columns
        (self : Builder V) (I : list Q) (v : string → list Q) :
  _values_index self = Some I →
  (∀ s, s ∈ series self →
        mapM (λ x, getitem (_values self) s x) I = Some (v s)) →
  ∃ self',
    LineBuilder_get_data self = Some self' ∧
    _attr self' = "x" :: (String.append "y_" <$> series self) ∧
    _groups self' = _groups self ++ series self ∧
    _data self' !! "x" = Some I ∧
    (∀ s, s ∈ series self → _data self' !! ("y_" +:+ s) = Some (v s)) ∧
    (∀ k, is_Some (_data self' !! k) → k ∈ _attr self') ∧
    (∀ k c, _data self' !! k = Some c → length c = length I).
Proof.
  intros HI Hv.
  assert (Forall (readable (_values self) I) (series self)) as Hread.
  { apply Forall_forall. intros s Hs. unfold readable. rewrite Hv; eauto. }
  assert (∀ s, s ∈ series self → column_of (_values self) I s = v s) as Hcol.
  { intros s Hs. unfold column_of. by rewrite Hv. }
  eexists. split; [by apply LineBuilder_get_data_closed|].
  cbn [_attr _data _groups with_groups with_data].
  set (data := line_columns (_values self) I (series self) {["x" := I]}).
  assert (data !! "x" = Some I) as Hx.
  { subst data. rewrite line_columns_other by done.
    apply lookup_singleton_eq. }
  assert (∀ s, s ∈ series self → data !! ("y_" +:+ s) = Some (v s)) as Hy.
  { intros s Hs. rewrite <- (Hcol s Hs). by apply line_columns_series. }
  assert (∀ k, is_Some (data !! k) →
               k = "x" ∨ ∃ s, s ∈ series self ∧ k = "y_" +:+ s) as Hdom.
  { intros k Hk. apply line_columns_dom in Hk as [Hk|Hk]; [|by right].
    destruct (decide (k = "x")) as [->|Hne]; [by left|].
    rewrite lookup_singleton_ne in Hk by done. by destruct Hk. }
  split; [reflexivity|]. split; [reflexivity|]. split; [exact Hx|].
  split; [exact Hy|]. split.
  - intros k Hk. apply Hdom in Hk as [->|(s & Hs & ->)]; [by left|].
    right. apply list_elem_of_fmap. by exists s.
  - intros k c Hk. destruct (Hdom k) as [->|(s & Hs & ->)]; [by eauto|..].
    + rewrite Hx in Hk. by injection Hk as <-.
    + rewrite (Hy s Hs) in Hk. injection Hk as <-.
      symmetry. exact (length_mapM _ _ _ (Hv s Hs)).
Qed.

(** ** When [get_data] and [get_source] return *)

(** X2: [get_data] of either builder returns exactly when the index
    sequence has been set (by [prepare_values]) and every series that is
    not the index column can be read along the whole of it; one failing
    lookup in one series makes it raise. *)
Theorem get_data_returns_iff (self : Builder V) :
  (is_Some (LineBuilder_get_data self) ↔
   ∃ xs, _values_index self = Some xs ∧
         Forall (readable (_values self) xs) (series self)) ∧
  (is_Some (StepBuilder_get_data self) ↔
   ∃ xs, _values_index self = Some xs ∧
         Forall (readable (_values self) xs) (series self)).
Proof.
  split; split.
  - intros [s1 Hs1]. by eapply LineBuilder_get_data_inv.
  - intros (xs & Hxs & Hread).
    rewrite (LineBuilder_get_data_closed _ _ Hxs Hread). eauto.
  - intros [s1 Hs1]. by eapply StepBuilder_get_data_inv.
  - intros (xs & Hxs & Hread).
    rewrite (StepBuilder_get_data_closed _ _ Hxs Hread). eauto.
Qed.

Lemma Py_max_is_Some (l : list Q) : is_Some (Py.max l) ↔ l ≠ [].
Proof. destruct l; cbn; split; intros H; try done; by destruct H. Qed.

Lemma Py_min_is_Some (l : list Q) : is_Some (Py.min l) ↔ l ≠ [].
Proof. destruct l; cbn; split; intros H; try done; by destruct H. Qed.

Lemma max_of_columns_is_Some (data : gmap string (list Q))
      (names : list string) :
  is_Some (max_of_columns data names) ↔
  names ≠ [] ∧ ∀ i, i ∈ names → ∃ col, data !! i = Some col ∧ col ≠ [].
Proof.
  split.
  - intros [hi Hhi]. apply max_of_columns_spec in Hhi as [(i & _ & Hi & _) H].
    split; [intros ->; by apply elem_of_nil in Hi|].
    intros j Hj. destruct (H j Hj) as (col & ? & ? & _). eauto.
  - intros [Hne Hall]. unfold max_of_columns.
    destruct (mapM _ names) as [ms|] eqn:Hms.
    + cbn. apply Py_max_is_Some. intros ->.
      apply length_mapM in Hms. by destruct names.
    + exfalso. assert (is_Some (mapM
        (λ i, data !! i ≫= λ col, Py.max col) names)) as [? Hc];
        [|congruence].
      apply mapM_is_Some, Forall_forall. intros i Hi.
      destruct (Hall i Hi) as (col & Hdata & Hcol).
      unfold compose. rewrite Hdata. cbn. by apply Py_max_is_Some.
Qed.

Lemma min_of_columns_is_Some (data : gmap string (list Q))
      (names : list string) :
  is_Some (min_of_columns data names) ↔
  names ≠ [] ∧ ∀ i, i ∈ names → ∃ col, data !! i = Some col ∧ col ≠ [].
Proof.
  split.
  - intros [lo Hlo]. apply min_of_columns_spec in Hlo as [(i & _ & Hi & _) H].
    split; [intros ->; by apply elem_of_nil in Hi|].
    intros j Hj. destruct (H j Hj) as (col & ? & ? & _). eauto.
  - intros [Hne Hall]. unfold min_of_columns.
    destruct (mapM _ names) as [ms|] eqn:Hms.
    + cbn. apply Py_min_is_Some. intros ->.
      apply length_mapM in Hms. by destruct names.
    + exfalso. assert (is_Some (mapM
        (λ i, data !! i ≫= λ col, Py.min col) names)) as [? Hc];
        [|congruence].
      apply mapM_is_Some, Forall_forall. intros i Hi.
      destruct (Hall i Hi) as (col & Hdata & Hcol).
      unfold compose. rewrite Hdata. cbn. by apply Py_min_is_Some.
Qed.

Lemma get_source_is_Some (self : Builder V) :
  (is_Some (LineBuilder_get_source self) ↔
   is_Some (max_of_columns (_data self) (drop 1 (_attr self)))) ∧
  (is_Some (StepBuilder_get_source self) ↔
   is_Some (max_of_columns (_data self) (drop 1 (_attr self)))).
Proof.
  assert (is_Some (max_of_columns (_data self) (drop 1 (_attr self))) →
          is_Some (min_of_columns (_data self) (drop 1 (_attr self))))
    as Hmin.
  { intros H. apply min_of_columns_is_Some.
    by apply max_of_columns_is_Some. }
  split; split.
  - intros [s2 Hs2].
    apply LineBuilder_get_source_inv in Hs2 as (? & ? & _ & -> & _). eauto.
  - intros Hmax. destruct (Hmin Hmax) as [lo Hlo]. destruct Hmax as [hi Hhi].
    rewrite (LineBuilder_get_source_closed _ _ _ Hlo Hhi). eauto.
  - intros [s2 Hs2].
    apply StepBuilder_get_source_inv in Hs2 as (? & ? & _ & -> & _). eauto.
  - intros Hmax. destruct (Hmin Hmax) as [lo Hlo]. destruct Hmax as [hi Hhi].
    rewrite (StepBuilder_get_source_closed _ _ _ Hlo Hhi). eauto.
Qed.

Lemma column_of_length (values : V) (xs : list Q) (col : string) :
  readable values xs col → length (column_of values xs col) = length xs.
Proof.
  intros Hread. symmetry.
  exact (length_mapM _ _ _ (column_of_readable _ _ _ Hread)).
Qed.

Lemma nonempty_length {A} (l : list A) : l ≠ [] ↔ 0 < length l.
Proof. destruct l; cbn; split; intros H; try done; lia. Qed.

(** X3: after [get_data], [LineBuilder.get_source] returns exactly when
    there is at least one series and the index sequence is not empty;
    [StepBuilder.get_source] returns exactly when the index sequence has at
    least two entries, with or without series, because its [x2] column is
    among the columns it takes the least and greatest item of.  In every
    other case [max] of an empty sequence raises. *)
Theorem get_source_returns_iff (self s1 : Builder V) (xs : list Q) :
  _values_index self = Some xs →
  (LineBuilder_get_data self = Some s1 →
   (is_Some (LineBuilder_get_source s1) ↔ series self ≠ [] ∧ xs ≠ [])) ∧
  (StepBuilder_get_data self = Some s1 →
   (is_Some (StepBuilder_get_source s1) ↔ 2 ≤ length xs)).
Proof.
  intros Hxs. split; intros Hdata.
  - destruct (LineBuilder_get_data_inv _ _ Hdata) as (xs' & Hxs' & Hread).
    assert (xs' = xs) as -> by congruence.
    rewrite (LineBuilder_get_data_closed _ _ Hxs Hread) in Hdata.
    injection Hdata as <-.
    destruct (get_source_is_Some
                (with_groups (_groups self ++ series self)
                   (with_data
                      (line_columns (_values self) xs (series self)
                         {["x" := xs]})
                      ("x" :: (String.append "y_" <$> series self)) self)))
      as [-> _].
    cbn [_data _attr with_groups with_data drop]. rewrite ?drop_0.
    rewrite max_of_columns_is_Some. split.
    + intros [Hnames Hcols]. split; [by destruct (series self)|].
      destruct (series self) as [|s rest] eqn:Hseries; [done|].
      destruct (Hcols ("y_" +:+ s)) as (col & Hcol & Hne); [by left|].
      rewrite line_columns_series in Hcol by by left.
      injection Hcol as <-. apply nonempty_length in Hne.
      rewrite column_of_length in Hne
        by (eapply Forall_forall; [exact Hread|by left]).
      by apply nonempty_length.
    + intros [Hseries Hne]. split; [by destruct (series self)|].
      intros i Hi. apply list_elem_of_fmap in Hi as (s & -> & Hs).
      eexists. split; [by apply line_columns_series|].
      apply nonempty_length. rewrite column_of_length
        by (eapply Forall_forall; [exact Hread|done]).
      by apply nonempty_length.
  - destruct (StepBuilder_get_data_inv _ _ Hdata) as (xs' & Hxs' & Hread).
    assert (xs' = xs) as -> by congruence.
    rewrite (StepBuilder_get_data_closed _ _ Hxs Hread) in Hdata.
    injection Hdata as <-.
    destruct (get_source_is_Some
                (with_groups (series self)
                   (with_data
                      (step_columns (_values self) xs (series self)
                         (<["x2" := Py.tail xs]> {["x" := Py.init xs]}))
                      ("x" :: "x2"
                           :: (series self
                               ≫= λ c, ["y1_" +:+ c; "y2_" +:+ c])) self)))
      as [_ ->].
    cbn [_data _attr with_groups with_data drop]. rewrite ?drop_0.
    rewrite max_of_columns_is_Some. split.
    + intros [_ Hcols].
      destruct (Hcols "x2") as (col & Hcol & Hne); [by left|].
      rewrite step_columns_other, lookup_insert_eq in Hcol by done.
      injection Hcol as <-. apply nonempty_length in Hne.
      rewrite Py_tail_length in Hne. lia.
    + intros Hlen. split; [done|]. intros i Hi.
      apply elem_of_cons in Hi as [->|Hi].
      * eexists. split.
        { rewrite step_columns_other by done. apply lookup_insert_eq. }
        apply nonempty_length. rewrite Py_tail_length. lia.
      * apply list_elem_of_bind in Hi as (s & Hi & Hs).
        assert (length (column_of (_values self) xs s) = length xs) as Hcol
            by (apply column_of_length; eapply Forall_forall;
                [exact Hread|done]).
        destruct (step_columns_series (_values self) xs (series self)
                    (<["x2" := Py.tail xs]> {["x" := Py.init xs]}) s Hs)
          as [Hy1 Hy2].
        apply elem_of_cons in Hi as [->|Hi].
        { eexists. split; [exact Hy1|]. apply nonempty_length.
          rewrite Py_init_length. lia. }
        apply list_elem_of_singleton in Hi as ->.
        eexists. split; [exact Hy2|]. apply nonempty_length.
        rewrite Py_tail_length. lia.
Qed.

(** ** The ranges in general *)

(** X4: after [LineBuilder.get_source] the y-range is the padded span of
    the least and greatest value found in the series taken together: both
    extremes are values of some series and no value of any series lies
    outside them.  Which two numbers the padding expression is applied
    to is what is stated; the value of the expression itself is not. *)
Theorem LineBuilder_y_range_pads_the_series (self s1 s2 : Builder V) :
  LineBuilder_get_data self = Some s1 →
  LineBuilder_get_source s1 = Some s2 →
  ∃ xs lo hi,
    _values_index self = Some xs ∧
    y_range s2 = Some (padded_range lo hi) ∧
    (∃ s, s ∈ series self ∧ lo ∈ column_of (_values self) xs s) ∧
    (∃ s, s ∈ series self ∧ hi ∈ column_of (_values self) xs s) ∧
    (∀ s y, s ∈ series self → y ∈ column_of (_values self) xs s →
            (lo <= y)%Q ∧ (y <= hi)%Q) ∧
    (lo <= hi)%Q.
Proof.
  intros Hdata Hsource.
  destruct (LineBuilder_y_range _ _ _ Hdata Hsource)
    as (xs & lo & hi & Hxs & Hy & Hlo & Hhi & Hall).
  assert (lo <= hi)%Q as Hle.
  { destruct Hlo as (s & Hs & Hin). by destruct (Hall s lo Hs Hin). }
  exists xs, lo, hi.
  split; [exact Hxs|]. split; [exact Hy|]. split; [exact Hlo|].
  split; [exact Hhi|]. split; [exact Hall|exact Hle].
Qed.

(** X5: after [StepBuilder.get_source] the y-range is the padded span of
    the least and greatest item found in the column [x2] (the index
    sequence without its first entry) and in the [y1_]/[y2_] columns of
    the series taken together: the index values take part in it, and the
    column [x] alone does not. *)
Theorem StepBuilder_y_range_pads_x2_and_the_series
        (self s1 s2 : Builder V) :
  StepBuilder_get_data self = Some s1 →
  StepBuilder_get_source s1 = Some s2 →
  ∃ xs lo hi,
    _values_index self = Some xs ∧
    y_range s2 = Some (padded_range lo hi) ∧
    (∀ x, x ∈ Py.tail xs → (lo <= x)%Q ∧ (x <= hi)%Q) ∧
    (∀ s y, s ∈ series self →
            y ∈ Py.init (column_of (_values self) xs s) ∨
            y ∈ Py.tail (column_of (_values self) xs s) →
            (lo <= y)%Q ∧ (y <= hi)%Q) ∧
    (∀ m, m = lo ∨ m = hi →
          m ∈ Py.tail xs ∨
          ∃ s, s ∈ series self ∧
               (m ∈ Py.init (column_of (_values self) xs s) ∨
                m ∈ Py.tail (column_of (_values self) xs s))).
Proof.
  intros Hdata Hsource.
  destruct (StepBuilder_get_data_inv _ _ Hdata) as (xs & Hxs & Hread).
  rewrite (StepBuilder_get_data_closed _ _ Hxs Hread) in Hdata.
  injection Hdata as <-.
  destruct (get_source_y_range _ _ (or_intror Hsource))
    as (lo & hi & Hmin & Hmax & Hy & _).
  cbn [_data _attr with_groups with_data drop] in Hmin, Hmax.
  rewrite ?drop_0 in Hmin, Hmax.
  set (data := step_columns (_values self) xs (series self)
                 (<["x2" := Py.tail xs]> {["x" := Py.init xs]})) in *.
  assert (data !! "x2" = Some (Py.tail xs)) as Hx2.
  { subst data. rewrite step_columns_other by done. apply lookup_insert_eq. }
  assert (∀ i col, i ∈ "x2" :: (series self
                                 ≫= λ c, ["y1_" +:+ c; "y2_" +:+ c]) →
            data !! i = Some col →
            col = Py.tail xs ∨
            ∃ s, s ∈ series self ∧
                 (col = Py.init (column_of (_values self) xs s) ∨
                  col = Py.tail (column_of (_values self) xs s))) as Hnames.
  { intros i col Hi Hcol. apply elem_of_cons in Hi as [->|Hi].
    - left. congruence.
    - right. apply list_elem_of_bind in Hi as (s & Hi & Hs). exists s.
      split; [done|].
      destruct (step_columns_series (_values self) xs (series self)
                  (<["x2" := Py.tail xs]> {["x" := Py.init xs]}) s Hs)
        as [Hy1 Hy2].
      fold data in Hy1, Hy2.
      apply elem_of_cons in Hi as [->|Hi]; [left; congruence|].
      apply list_elem_of_singleton in Hi as ->. right. congruence. }
  destruct (min_of_columns_spec _ _ _ Hmin)
    as [(i & col & Hi & Hcol & Hlo) Hall_lo].
  destruct (max_of_columns_spec _ _ _ Hmax)
    as [(i' & col' & Hi' & Hcol' & Hhi) Hall_hi].
  exists xs, lo, hi. split; [done|]. split; [done|]. split; [|split].
  - intros x Hx.
    destruct (Hall_lo "x2") as (c & Hc & _ & Hle_lo); [by left|].
    destruct (Hall_hi "x2") as (c' & Hc' & _ & Hle_hi); [by left|].
    rewrite Hx2 in Hc, Hc'. injection Hc as <-. injection Hc' as <-.
    split; auto.
  - intros s y Hs Hys.
    destruct (step_columns_series (_values self) xs (series self)
                (<["x2" := Py.tail xs]> {["x" := Py.init xs]}) s Hs)
      as [Hy1 Hy2].
    assert ("y1_" +:+ s ∈ "x2" :: (series self
                                   ≫= λ c, ["y1_" +:+ c; "y2_" +:+ c]))
      as Hn1.
    { right. apply list_elem_of_bind. exists s. split; [by left|done]. }
    assert ("y2_" +:+ s ∈ "x2" :: (series self
                                   ≫= λ c, ["y1_" +:+ c; "y2_" +:+ c]))
      as Hn2.
    { right. apply list_elem_of_bind. exists s.
      split; [right; by left|done]. }
    destruct Hys as [Hys|Hys].
    + destruct (Hall_lo _ Hn1) as (c & Hc & _ & Hle_lo).
      destruct (Hall_hi _ Hn1) as (c' & Hc' & _ & Hle_hi).
      fold data in Hy1. rewrite Hy1 in Hc, Hc'.
      injection Hc as <-. injection Hc' as <-. split; auto.
    + destruct (Hall_lo _ Hn2) as (c & Hc & _ & Hle_lo).
      destruct (Hall_hi _ Hn2) as (c' & Hc' & _ & Hle_hi).
      fold data in Hy2. rewrite Hy2 in Hc, Hc'.
      injection Hc as <-. injection Hc' as <-. split; auto.
  - intros m [-> | ->].
    + destruct (Hnames _ _ Hi Hcol) as [->|(s & Hs & [-> | ->])];
        [by left|right; exists s; auto..].
    + destruct (Hnames _ _ Hi' Hcol') as [->|(s & Hs & [-> | ->])];
        [by left|right; exists s; auto..].
Qed.

(** ** Segments of a step chart *)

Lemma Py_init_lookup {A} (l : list A) (j : nat) :
  S j < length l → Py.init l !! j = l !! j.
Proof. intros Hj. unfold Py.init. apply lookup_take_lt. lia. Qed.

Lemma Py_tail_lookup {A} (l : list A) (j : nat) :
  Py.tail l !! j = l !! S j.
Proof. unfold Py.tail. by rewrite lookup_drop. Qed.

(** X6: row [j] of the step columns describes the step between the index
    entries [j] and [j+1]: [x[j]] and [x2[j]] are these two entries, and
    for every series [y1_s[j]] and [y2_s[j]] are its values at them; so
    each step ends where the next one starts. *)
Theorem StepBuilder_rows_join_consecutive_entries
        (self : Builder V) (I : list Q) (v : string → list Q) :
  _values_index self = Some I →
  (∀ s, s ∈ series self →
        mapM (λ x, getitem (_values self) s x) I = Some (v s)) →
  ∃ self' x x2,
    StepBuilder_get_data self = Some self' ∧
    _data self' !! "x" = Some x ∧
    _data self' !! "x2" = Some x2 ∧
    (∀ j, S j < length I → x !! j = I !! j ∧ x2 !! j = I !! S j) ∧
    (∀ s, s ∈ series self →
          ∃ y1 y2,
            _data self' !! ("y1_" +:+ s) = Some y1 ∧
            _data self' !! ("y2_" +:+ s) = Some y2 ∧
            ∀ j, S j < length I →
                 y1 !! j = v s !! j ∧ y2 !! j = v s !! S j).
Proof.
  intros HI Hv.
  assert (Forall (readable (_values self) I) (series self)) as Hread.
  { apply Forall_forall. intros s Hs. unfold readable. rewrite Hv; eauto. }
  exists (with_groups (series self)
            (with_data
               (step_columns (_values self) I (series self)
                  (<["x2" := Py.tail I]> {["x" := Py.init I]}))
               ("x" :: "x2"
                    :: (series self ≫= λ c, ["y1_" +:+ c; "y2_" +:+ c]))
               self)),
         (Py.init I), (Py.tail I).
  split; [by apply StepBuilder_get_data_closed|].
  cbn [_data with_groups with_data].
  split.
  { rewrite step_columns_other by done.
    rewrite lookup_insert_ne by done. apply lookup_singleton_eq. }
  split.
  { rewrite step_columns_other by done. apply lookup_insert_eq. }
  split.
  { intros j Hj. split; [by apply Py_init_lookup|apply Py_tail_lookup]. }
  intros s Hs.
  destruct (step_columns_series (_values self) I (series self)
              (<["x2" := Py.tail I]> {["x" := Py.init I]}) s Hs)
    as [Hy1 Hy2].
  assert (column_of (_values self) I s = v s) as Hcol.
  { unfold column_of. by rewrite Hv. }
  rewrite Hcol in Hy1, Hy2.
  exists (Py.init (v s)), (Py.tail (v s)).
  split; [exact Hy1|]. split; [exact Hy2|].
  intros j Hj. split; [|apply Py_tail_lookup].
  apply Py_init_lookup. rewrite <- (length_mapM _ _ _ (Hv s Hs)). exact Hj.
Qed.

(** ** What the renderers refer to *)

(** X7: every renderer that [draw] yields reads from the one source that
    [get_source] built from the builder's data, and every column its glyph
    names is a column of that data: a line over [x] and an existing
    [y_] column, or a segment over [x], [x2] and two existing columns. *)
Theorem renderers_read_existing_columns (self s1 s2 : Builder V) :
  (LineBuilder_get_data self = Some s1 →
   LineBuilder_get_source s1 = Some s2 →
   ∃ rs s3,
     LineBuilder_draw s2 = Some (rs, s3) ∧
     _source s3 = Some {| cds_data := _data s3 |} ∧
     ∀ r, r ∈ rs →
          data_source r = _source s3 ∧
          ∃ y c, glyph r = LineGlyph "x" y c ∧
                 is_Some (_data s3 !! "x") ∧ is_Some (_data s3 !! y)) ∧
  (StepBuilder_get_data self = Some s1 →
   StepBuilder_get_source s1 = Some s2 →
   ∃ rs s3,
     StepBuilder_draw s2 = Some (rs, s3) ∧
     _source s3 = Some {| cds_data := _data s3 |} ∧
     ∀ r, r ∈ rs →
          data_source r = _source s3 ∧
          ∃ y1 y2 c,
            (glyph r = Segment "x2" y1 "x2" y2 c ∨
             glyph r = Segment "x" y1 "x2" y1 c) ∧
            is_Some (_data s3 !! "x") ∧ is_Some (_data s3 !! "x2") ∧
            is_Some (_data s3 !! y1) ∧ is_Some (_data s3 !! y2)).
Proof.
  split; intros Hdata Hsource.
  - destruct (LineBuilder_draw_after_get_data _ _ _ Hdata Hsource)
      as [_ Hdraw].
    destruct (LineBuilder_get_data_inv _ _ Hdata) as (xs & Hxs & Hread).
    rewrite (LineBuilder_get_data_closed _ _ Hxs Hread) in Hdata.
    injection Hdata as <-.
    destruct (LineBuilder_get_source_inv _ _ Hsource)
      as (lo & hi & _ & _ & Hs2).
    do 2 eexists. split; [exact Hdraw|].
    cbn [_source _data with_legends]. rewrite Hs2.
    cbn [_source _data with_ranges with_source with_groups with_data].
    split; [reflexivity|]. intros r Hr.
    apply list_elem_of_lookup in Hr as [j Hj].
    rewrite list_lookup_imap in Hj.
    destruct (series self !! j) as [s|] eqn:Hs; [|done].
    cbn in Hj. injection Hj as <-. cbn. split; [reflexivity|].
    do 2 eexists. split; [reflexivity|]. split.
    + rewrite line_columns_other by done.
      rewrite lookup_singleton_eq. eauto.
    + rewrite line_columns_series by by eapply list_elem_of_lookup_2.
      eauto.
  - destruct (StepBuilder_draw_after_get_data _ _ _ Hdata Hsource)
      as [_ Hdraw].
    destruct (StepBuilder_get_data_inv _ _ Hdata) as (xs & Hxs & Hread).
    rewrite (StepBuilder_get_data_closed _ _ Hxs Hread) in Hdata.
    injection Hdata as <-.
    destruct (StepBuilder_get_source_inv _ _ Hsource)
      as (lo & hi & _ & _ & Hs2).
    do 2 eexists. split; [exact Hdraw|].
    cbn [_source _data with_legends]. rewrite Hs2.
    cbn [_source _data with_ranges with_source with_groups with_data].
    split; [reflexivity|]. intros r Hr.
    apply list_elem_of_join in Hr as (pair & Hr & Hpair).
    apply list_elem_of_lookup in Hpair as [j Hj].
    rewrite list_lookup_imap in Hj.
    destruct (series self !! j) as [s|] eqn:Hs; [|done].
    cbn in Hj. injection Hj as <-.
    assert (s ∈ series self) as Hin by by eapply list_elem_of_lookup_2.
    destruct (step_columns_series (_values self) xs (series self)
                (<["x2" := Py.tail xs]> {["x" := Py.init xs]}) s Hin)
      as [Hy1 Hy2].
    assert (r = {| data_source :=
                     Some {| cds_data :=
                       step_columns (_values self) xs (series self)
                         (<["x2" := Py.tail xs]> {["x" := Py.init xs]}) |};
                   glyph := Segment "x2" ("y1_" +:+ s) "x2" ("y2_" +:+ s)
                                    (palette_color j) |} ∨
            r = {| data_source :=
                     Some {| cds_data :=
                       step_columns (_values self) xs (series self)
                         (<["x2" := Py.tail xs]> {["x" := Py.init xs]}) |};
                   glyph := Segment "x" ("y1_" +:+ s) "x2" ("y1_" +:+ s)
                                    (palette_color j) |}) as Hcases.
    { apply elem_of_cons in Hr as [->|Hr]; [by left|].
      apply list_elem_of_singleton in Hr as ->. by right. }
    assert (is_Some (step_columns (_values self) xs (series self)
              (<["x2" := Py.tail xs]> {["x" := Py.init xs]}) !! "x")) as Hx.
    { rewrite step_columns_other by done.
      rewrite lookup_insert_ne by done. rewrite lookup_singleton_eq. eauto. }
    assert (is_Some (step_columns (_values self) xs (series self)
              (<["x2" := Py.tail xs]> {["x" := Py.init xs]}) !! "x2"))
      as Hx2.
    { rewrite step_columns_other by done. rewrite lookup_insert_eq. eauto. }
    destruct Hcases as [-> | ->]; cbn; (split; [reflexivity|]).
    + exists ("y1_" +:+ s), ("y2_" +:+ s), (palette_color j).
      split; [by left|]. rewrite Hy1, Hy2. eauto.
    + exists ("y1_" +:+ s), ("y1_" +:+ s), (palette_color j).
      split; [by right|]. rewrite Hy1. eauto.
Qed.

(** ** Generated names never collide *)

Lemma NoDup_bind_pairs (l : list string) :
  NoDup l → NoDup (l ≫= λ c, ["y1_" +:+ c; "y2_" +:+ c]).
Proof.
  induction 1 as [|c l Hc Hl IH]; [constructor|].
  cbn. apply NoDup_cons. split.
  - intros Hin. apply elem_of_cons in Hin as [Heq|Hin]; [done|].
    apply list_elem_of_bind in Hin as (c' & Hin & Hc').
    apply elem_of_cons in Hin as [Heq|Hin].
    + cbn in Heq. by simplify_eq.
    + by apply list_elem_of_singleton in Hin.
  - apply NoDup_cons. split; [|done]. intros Hin.
    apply list_elem_of_bind in Hin as (c' & Hin & Hc').
    apply elem_of_cons in Hin as [Heq|Hin]; [done|].
    apply list_elem_of_singleton in Hin. cbn in Hin. by simplify_eq.
Qed.

Lemma size_of_named_map (data : gmap string (list Q)) (attr : list string) :
  NoDup attr →
  (∀ k, k ∈ attr ↔ is_Some (data !! k)) →
  length attr = size data.
Proof.
  intros Hnodup Hdom.
  rewrite <- size_dom, <- (size_list_to_set (C := gset string) attr) by done.
  f_equal. apply set_eq. intros k.
  by rewrite elem_of_list_to_set, elem_of_dom.
Qed.

(** X12: when the series names the adapter enumerates are distinct, the
    attribute list that [get_data] leaves has no duplicates and names
    exactly the columns of the data, so it is as long as the data has
    columns: the builders never make [set_and_get] overwrite a column. *)
Theorem get_data_names_are_distinct (self s1 : Builder V) :
  NoDup (keys (_values self)) →
  LineBuilder_get_data self = Some s1 ∨ StepBuilder_get_data self = Some s1 →
  NoDup (_attr s1) ∧
  (∀ k, k ∈ _attr s1 ↔ is_Some (_data s1 !! k)) ∧
  length (_attr s1) = size (_data s1).
Proof.
  intros Hkeys Hdata.
  assert (NoDup (series self)) as Hseries by by apply NoDup_filter.
  assert (NoDup (_attr s1) ∧ (∀ k, k ∈ _attr s1 ↔ is_Some (_data s1 !! k)))
    as [Hnodup Hdom]; [|by eauto using size_of_named_map].
  destruct Hdata as [Hdata|Hdata].
  - destruct (LineBuilder_get_data_inv _ _ Hdata) as (xs & Hxs & Hread).
    rewrite (LineBuilder_get_data_closed _ _ Hxs Hread) in Hdata.
    injection Hdata as <-. cbn [_attr _data with_groups with_data]. split.
    + apply NoDup_cons. split.
      * intros Hin. by apply list_elem_of_fmap in Hin as (s & Heq & _).
      * apply NoDup_fmap_2; [|done]. intros a b Heq. cbn in Heq.
        by simplify_eq.
    + intros k. split.
      * intros Hk. apply elem_of_cons in Hk as [->|Hk].
        { rewrite line_columns_other by done.
          rewrite lookup_singleton_eq. eauto. }
        apply list_elem_of_fmap in Hk as (s & -> & Hs).
        rewrite line_columns_series by done. eauto.
      * intros Hk. apply line_columns_dom in Hk as [Hk|(s & Hs & ->)].
        { destruct (decide (k = "x")) as [->|Hne]; [by left|].
          rewrite lookup_singleton_ne in Hk by done. by destruct Hk. }
        right. apply list_elem_of_fmap. by exists s.
  - destruct (StepBuilder_get_data_inv _ _ Hdata) as (xs & Hxs & Hread).
    rewrite (StepBuilder_get_data_closed _ _ Hxs Hread) in Hdata.
    injection Hdata as <-. cbn [_attr _data with_groups with_data]. split.
    + apply NoDup_cons. split.
      { intros Hin. apply elem_of_cons in Hin as [Heq|Hin]; [done|].
        apply list_elem_of_bind in Hin as (s & Hin & _).
        apply elem_of_cons in Hin as [Heq|Hin]; [done|].
        by apply list_elem_of_singleton in Hin. }
      apply NoDup_cons. split; [|by apply NoDup_bind_pairs].
      intros Hin. apply list_elem_of_bind in Hin as (s & Hin & _).
      apply elem_of_cons in Hin as [Heq|Hin]; [done|].
      by apply list_elem_of_singleton in Hin.
    + intros k. split.
      * intros Hk. apply elem_of_cons in Hk as [->|Hk].
        { rewrite step_columns_other by done.
          rewrite lookup_insert_ne by done.
          rewrite lookup_singleton_eq. eauto. }
        apply elem_of_cons in Hk as [->|Hk].
        { rewrite step_columns_other by done.
          rewrite lookup_insert_eq. eauto. }
        apply list_elem_of_bind in Hk as (s & Hk & Hs).
        destruct (step_columns_series (_values self) xs (series self)
                    (<["x2" := Py.tail xs]> {["x" := Py.init xs]}) s Hs)
          as [Hy1 Hy2].
        apply elem_of_cons in Hk as [->|Hk]; [rewrite Hy1; eauto|].
        apply list_elem_of_singleton in Hk as ->. rewrite Hy2. eauto.
      * intros Hk. apply step_columns_dom in Hk as [Hk|(s & Hs & Hk)].
        { destruct (decide (k = "x2")) as [->|Hne2]; [right; by left|].
          rewrite lookup_insert_ne in Hk by done.
          destruct (decide (k = "x")) as [->|Hne]; [by left|].
          rewrite lookup_singleton_ne in Hk by done. by destruct Hk. }
        do 2 right. apply list_elem_of_bind. exists s. split; [|done].
        destruct Hk as [-> | ->]; [by left|right; by left].
Qed.

(** ** [create], the chart and the factory *)

Lemma create_inv (cls : BuilderClass V) (self s' : Builder V)
      (chart chart' : Chart) :
  create cls self chart = Some (s', chart') →
  ∃ p d g rs,
    prepare_values self = Some p ∧
    get_data cls p = Some d ∧
    get_source cls d = Some g ∧
    draw cls g = Some (rs, s') ∧
    chart_renderers chart' = chart_renderers chart ++ rs ∧
    chart_legends chart' = chart_legends chart ++ _legends s' ∧
    chart_kws chart' = chart_kws chart ∧
    chart_x_range chart'
    = (if py_not (chart_x_range chart) then x_range s'
       else chart_x_range chart) ∧
    chart_y_range chart'
    = (if py_not (chart_y_range chart) then y_range s'
       else chart_y_range chart).
Proof.
  unfold create. intros H.
  destruct (prepare_values self) as [p|]; [cbn in H|done].
  destruct (get_data cls p) as [d|] eqn:Hd; [cbn in H|done].
  destruct (get_source cls d) as [g|] eqn:Hg; [cbn in H|done].
  destruct (draw cls g) as [[rs s4]|] eqn:Hdraw; [cbn in H|done].
  injection H as <- <-. exists p, d, g, rs.
  destruct chart as [kw rs0 [xr|] [yr|] lg]; cbn; by repeat split.
Qed.

(** X11: two builders that are run one after the other on the same chart:
    the chart keeps the renderers and the legend entries of both, in call
    order, after its own; each of its two range slots, if unset before the
    first call and set by it, still holds the first builder's range after
    the second call. *)
Theorem two_builders_on_one_chart
        (cls1 cls2 : BuilderClass V) (b1 b2 s1 s2 : Builder V)
        (chart c1 c2 : Chart) :
  create cls1 b1 chart = Some (s1, c1) →
  create cls2 b2 c1 = Some (s2, c2) →
  chart_legends c2 = chart_legends chart ++ _legends s1 ++ _legends s2 ∧
  (∃ rs1 rs2 g1 g2,
     draw cls1 g1 = Some (rs1, s1) ∧ draw cls2 g2 = Some (rs2, s2) ∧
     chart_renderers c2 = chart_renderers chart ++ rs1 ++ rs2) ∧
  (chart_x_range chart = None → is_Some (x_range s1) →
   chart_x_range c2 = x_range s1) ∧
  (chart_y_range chart = None → is_Some (y_range s1) →
   chart_y_range c2 = y_range s1).
Proof.
  intros H1 H2.
  destruct (create_inv _ _ _ _ _ H1)
    as (p1 & d1 & g1 & rs1 & _ & _ & _ & Hdraw1 & Hrs1 & Hl1 & _ & Hx1 & Hy1).
  destruct (create_inv _ _ _ _ _ H2)
    as (p2 & d2 & g2 & rs2 & _ & _ & _ & Hdraw2 & Hrs2 & Hl2 & _ & Hx2 & Hy2).
  split; [by rewrite Hl2, Hl1, <- app_assoc|]. split.
  { exists rs1, rs2, g1, g2. by rewrite Hrs2, Hrs1, <- app_assoc. }
  split.
  - intros Hunset [r Hr]. rewrite Hunset in Hx1. cbn in Hx1.
    rewrite Hx2, Hx1, Hr. reflexivity.
  - intros Hunset [r Hr]. rewrite Hunset in Hy1. cbn in Hy1.
    rewrite Hy2, Hy1, Hr. reflexivity.
Qed.

(** X13: the chart that [create_and_build] returns was made from the
    keywords that are not properties of the builder class, and holds what
    the one builder contributed and nothing else: the renderers it drew,
    its legend entries and its two ranges. *)
Theorem create_and_build_chart
        (cls : BuilderClass V) (values : V) (kws : gmap string PyVal)
        (s : Builder V) (chart : Chart) :
  create_and_build cls values kws = Some (s, chart) →
  chart_kws chart = chart_kws_of (properties cls) kws ∧
  chart_x_range chart = x_range s ∧
  chart_y_range chart = y_range s ∧
  chart_legends chart = _legends s ∧
  ∃ g, draw cls g = Some (chart_renderers chart, s).
Proof.
  unfold create_and_build, add_builder. intros H.
  destruct (create_inv _ _ _ _ _ H)
    as (p & d & g & rs & _ & _ & _ & Hdraw & Hrs & Hl & Hkw & Hx & Hy).
  cbn in Hrs, Hl, Hkw, Hx, Hy.
  split; [exact Hkw|]. split; [exact Hx|]. split; [exact Hy|].
  split; [exact Hl|]. exists g. by rewrite Hrs.
Qed.

(** ** The index keyword of [Line] and [Step] *)

Lemma builder_kws_without_index (props : gset string) (idx idx' : PyVal)
      (kws : gmap string PyVal) :
  delete "index" (builder_kws props (<["index" := idx]> kws))
  = delete "index" (builder_kws props (<["index" := idx']> kws)).
Proof.
  apply map_eq. intros k. destruct (decide (k = "index")) as [->|Hne].
  - by rewrite !lookup_delete_eq.
  - rewrite !lookup_delete_ne by done. unfold builder_kws.
    by rewrite !map_lookup_filter, !lookup_insert_ne.
Qed.

Lemma chart_kws_without_index (idx idx' : PyVal) (kws : gmap string PyVal) :
  chart_kws_of declared_properties (<["index" := idx]> kws)
  = chart_kws_of declared_properties (<["index" := idx']> kws).
Proof.
  apply map_eq. intros k. unfold chart_kws_of.
  destruct (decide (k = "index")) as [->|Hne].
  - transitivity (@None PyVal); [|symmetry];
      apply map_lookup_filter_None; right; intros v _ Hout; apply Hout;
      apply (bool_decide_unpack _); by vm_compute.
  - by rewrite !map_lookup_filter, !lookup_insert_ne.
Qed.

(** X9: what [Line(values, index, **kws)] returns does not depend on the
    [index] argument: [LineBuilder.__init__] takes the keyword as a
    parameter of its own and passes neither it nor [legend] nor [palette]
    on to [Builder.__init__], so the builder always runs with the default
    index. *)
Theorem Line_ignores_its_index
        (values : V) (idx idx' : PyVal) (kws : gmap string PyVal) :
  Line values idx kws = Line values idx' kws.
Proof.
  unfold Line, create_and_build.
  cbn [properties new LineBuilder]. unfold LineBuilder_init.
  by rewrite (builder_kws_without_index _ idx idx'),
             (chart_kws_without_index idx idx').
Qed.

Lemma zip_with_legend_names (gs : list string) (rs : list GlyphRenderer)
      (g : string) :
  g ∈ (zip_with (λ g r, (g, [r])) gs rs).*1 → g ∈ gs.
Proof.
  revert rs. induction gs as [|g' gs IH]; intros [|r rs] Hg;
    try (cbn in Hg; by apply elem_of_nil in Hg).
  cbn in Hg. apply elem_of_cons in Hg as [->|Hg]; [by left|].
  right. by eapply IH.
Qed.

(** X10: [Step(values, index=name, **kws)] with a column name as index: the
    builder keeps that index, and the index column is not treated as a
    series; it is not in [_groups], has no legend entry and no [y1_]/[y2_]
    column in the data. *)
Theorem Step_never_draws_its_index_column
        (values : V) (name : string) (kws : gmap string PyVal)
        (s : Builder V) (chart : Chart) :
  Step values (PyStr name) kws = Some (s, chart) →
  index s = PyStr name ∧
  (name ∉ _groups s) ∧
  (name ∉ (_legends s).*1) ∧
  _data s !! ("y1_" +:+ name) = None ∧
  _data s !! ("y2_" +:+ name) = None.
Proof.
  unfold Step, create_and_build, add_builder.
  cbn [properties new StepBuilder].
  set (b0 := StepBuilder_init _ _). intros Hcreate.
  assert (index b0 = PyStr name ∧ _legends b0 = []) as [Hindex Hlegends].
  { subst b0. unfold StepBuilder_init, builder_kws. cbn.
    rewrite map_lookup_filter, lookup_insert_eq. cbn.
    rewrite option_guard_True; [done|].
    apply (bool_decide_unpack _). by vm_compute. }
  destruct (create_inv _ _ _ _ _ Hcreate)
    as (p & d & g & rs & Hp & Hd & Hg & Hdraw & _).
  assert (index p = PyStr name ∧ _legends p = []) as [Hindex_p Hlegends_p].
  { unfold prepare_values in Hp.
    destruct (get_index_and_data (_values b0) (index b0)) as [[??]|];
      [|done].
    cbn in Hp. injection Hp as <-. by cbn. }
  change (get_data StepBuilder) with (StepBuilder_get_data (V:=V)) in Hd.
  change (get_source StepBuilder) with (StepBuilder_get_source (V:=V)) in Hg.
  change (draw StepBuilder) with (StepBuilder_draw (V:=V)) in Hdraw.
  destruct (StepBuilder_hooks_again p p _ _ _ _ ltac:(done) Hd Hg Hdraw)
    as (_ & _ & _ & new & _ & _ & _ & _ & _ & _ & _ &
        (Hi & _ & _) & _ & Hgroups & _ & Hl & _).
  assert (name ∉ series p) as Hout.
  { unfold series. rewrite Hindex_p. intros Hin.
    apply list_elem_of_filter in Hin as [Hin _]. cbn in Hin.
    by rewrite bool_decide_eq_true_2 in Hin. }
  destruct (StepBuilder_get_data_inv _ _ Hd) as (xs & Hxs & Hread).
  rewrite (StepBuilder_get_data_closed _ _ Hxs Hread) in Hd.
  injection Hd as <-.
  destruct (StepBuilder_get_source_inv _ _ Hg) as (lo & hi & _ & _ & ->).
  assert (_data s = step_columns (_values p) xs (series p)
                      (<["x2" := Py.tail xs]> {["x" := Py.init xs]}))
    as Hdata.
  { destruct (StepBuilder_draw_after_get_data p _ _
                (StepBuilder_get_data_closed _ _ Hxs Hread) Hg)
      as [_ Hdraw']. rewrite Hdraw in Hdraw'. by injection Hdraw' as _ ->. }
  split; [by rewrite <- Hi|]. split; [by rewrite Hgroups|]. split.
  { rewrite Hl, Hlegends_p. cbn. intros Hin.
    by apply zip_with_legend_names in Hin. }
  rewrite Hdata.
  assert (∀ k, (k = "y1_" +:+ name ∨ k = "y2_" +:+ name) →
               step_columns (_values p) xs (series p)
                 (<["x2" := Py.tail xs]> {["x" := Py.init xs]}) !! k = None)
    as Hnone.
  { intros k Hk. apply eq_None_not_Some. intros Hsome.
    apply step_columns_dom in Hsome as [Hsome|(c & Hc & Hkc)].
    - destruct Hk as [-> | ->];
        rewrite lookup_insert_ne, lookup_singleton_ne in Hsome by done;
        by destruct Hsome.
    - destruct Hk as [-> | ->], Hkc as [Heq|Heq];
        cbn in Heq; simplify_eq; done. }
  split; apply Hnone; auto.
Qed.

(** ** What [create] does to the builder's input *)

(** X8: when [create] of a line or step builder returns, the builder holds
    the index sequence and the adapted values that the adapter returned
    for its raw values and its index, and its [index] property is what it
    was: the three hooks read the input and never write it. *)
Theorem create_keeps_the_adapted_input
        (self s : Builder V) (chart chart' : Chart) :
  create LineBuilder self chart = Some (s, chart') ∨
  create StepBuilder self chart = Some (s, chart') →
  ∃ xs,
    get_index_and_data (_values self) (index self) = Some (xs, _values s) ∧
    _values_index s = Some xs ∧
    index s = index self.
Proof.
  assert (∀ p, prepare_values self = Some p → same_input p s →
    ∃ xs, get_index_and_data (_values self) (index self)
          = Some (xs, _values s) ∧
          _values_index s = Some xs ∧ index s = index self) as Hprepared.
  { intros p Hp (Hi & Hv & Hx). unfold prepare_values in Hp.
    destruct (get_index_and_data (_values self) (index self))
      as [[xs vs]|]; [|done].
    cbn in Hp. injection Hp as <-. cbn in Hi, Hv, Hx.
    exists xs. by rewrite <- Hv, <- Hx, <- Hi. }
  intros [Hcreate|Hcreate];
    destruct (create_inv _ _ _ _ _ Hcreate)
      as (p & d & g & rs & Hp & Hd & Hg & Hdraw & _);
    apply (Hprepared p Hp).
  - by destruct (LineBuilder_hooks_again p p _ _ _ _ ltac:(done) Hd Hg Hdraw)
      as (? & ? & ? & ? & ? & ? & ? & ? & ? & ? & ? & ? & ?).
  - by destruct (StepBuilder_hooks_again p p _ _ _ _ ltac:(done) Hd Hg Hdraw)
      as (? & ? & ? & ? & ? & ? & ? & ? & ? & ? & ? & ? & ?).
Qed.

End More_properties.

(** * The further properties at concrete inputs *)

Lemma LineBuilder_get_data_columns_witness :
  ∃ self',
    LineBuilder_get_data (prepared line_example) = Some self' ∧
    _attr self' = ["x"; "y_a"; "y_b"] ∧
    _data self' !! "x" = Some [1; 2; 3]%Q ∧
    _data self' !! "y_a" = Some [1; 4; 9]%Q ∧
    _data self' !! "y_b" = Some [2; 3; 5]%Q.
Proof.
  destruct (LineBuilder_get_data_columns
              (prepared line_example) [1; 2; 3]%Q
              (λ s, if bool_decide (s = "a") then [1; 4; 9]%Q
                    else [2; 3; 5]%Q))
    as (self' & Hdata & Hattr & _ & Hx & Hy & _).
  - reflexivity.
  - intros s Hs. vm_compute in Hs.
    apply elem_of_cons in Hs as [->|Hs]; [reflexivity|].
    apply list_elem_of_singleton in Hs as ->. reflexivity.
  - exists self'. split; [exact Hdata|]. split; [exact Hattr|].
    split; [exact Hx|].
    split; [apply (Hy "a")|apply (Hy "b")]; vm_compute;
      [by left|right; by left].
Defined.

Lemma get_data_returns_iff_witness :
  is_Some (LineBuilder_get_data (prepared line_example)) ∧
  is_Some (StepBuilder_get_data (prepared step_example)).
Proof.
  split.
  - apply (get_data_returns_iff (prepared line_example)).
    exists [1; 2; 3]%Q. split; [reflexivity|].
    replace (series (prepared line_example)) with ["a"; "b"]
      by (vm_compute; reflexivity).
    repeat constructor; eexists; vm_compute; reflexivity.
  - apply (get_data_returns_iff (prepared step_example)).
    exists [1; 2; 3]%Q. split; [reflexivity|].
    replace (series (prepared step_example)) with ["a"; "b"]
      by (vm_compute; reflexivity).
    repeat constructor; eexists; vm_compute; reflexivity.
Defined.

Lemma get_source_returns_iff_witness :
  is_Some (LineBuilder_get_source (got_data LineBuilder line_example)) ∧
  is_Some (StepBuilder_get_source (got_data StepBuilder step_example)).
Proof.
  split.
  - destruct (get_source_returns_iff
                (prepared line_example) (got_data LineBuilder line_example)
                [1; 2; 3]%Q) as [Hline _]; [reflexivity|].
    apply Hline; [vm_compute; reflexivity|].
    split; [vm_compute; discriminate|discriminate].
  - destruct (get_source_returns_iff
                (prepared step_example) (got_data StepBuilder step_example)
                [1; 2; 3]%Q) as [_ Hstep]; [reflexivity|].
    apply Hstep; [vm_compute; reflexivity|]. cbn. lia.
Defined.

Lemma LineBuilder_y_range_pads_the_series_witness :
  ∃ lo hi,
    y_range (got_source LineBuilder line_positional)
    = Some (padded_range lo hi) ∧
    (lo <= 1)%Q ∧ (9 <= hi)%Q.
Proof.
  destruct (LineBuilder_y_range_pads_the_series
              (prepared line_positional)
              (got_data LineBuilder line_positional)
              (got_source LineBuilder line_positional))
    as (xs & lo & hi & Hxs & Hy & _ & _ & Hall & _);
    [vm_compute; reflexivity..|].
  exists lo, hi. split; [exact Hy|].
  assert (xs = [0; 1; 2]%Q) as ->
      by (vm_compute in Hxs; by injection Hxs as <-).
  split.
  - apply (Hall "a" 1%Q); vm_compute; left.
  - apply (Hall "a" 9%Q); [vm_compute; left|vm_compute; right; right; left].
Defined.

Lemma StepBuilder_y_range_pads_x2_and_the_series_witness :
  ∃ lo hi,
    y_range (got_source StepBuilder step_steep)
    = Some (padded_range lo hi) ∧
    (lo <= 30)%Q ∧ (30 <= hi)%Q.
Proof.
  destruct (StepBuilder_y_range_pads_x2_and_the_series
              (prepared step_steep) (got_data StepBuilder step_steep)
              (got_source StepBuilder step_steep))
    as (xs & lo & hi & Hxs & Hy & Hx2 & _); [vm_compute; reflexivity..|].
  exists lo, hi. split; [exact Hy|].
  assert (xs = [1; 2; 30]%Q) as ->
      by (vm_compute in Hxs; by injection Hxs as <-).
  apply Hx2. vm_compute. right. left.
Defined.

Lemma StepBuilder_rows_join_consecutive_entries_witness :
  ∃ self' x x2,
    StepBuilder_get_data (prepared step_labelled) = Some self' ∧
    _data self' !! "x" = Some x ∧
    _data self' !! "x2" = Some x2 ∧
    x !! 1 = Some 2%Q ∧ x2 !! 1 = Some 3%Q.
Proof.
  destruct (StepBuilder_rows_join_consecutive_entries
              (prepared step_labelled) [1; 2; 3]%Q
              (λ s, if bool_decide (s = "a") then [1; 4; 9]%Q
                    else [2; 3; 5]%Q))
    as (self' & x & x2 & Hdata & Hx & Hx2 & Hrows & _).
  - reflexivity.
  - intros s Hs. vm_compute in Hs.
    apply elem_of_cons in Hs as [->|Hs]; [reflexivity|].
    apply list_elem_of_singleton in Hs as ->. reflexivity.
  - exists self', x, x2. split; [exact Hdata|]. split; [exact Hx|].
    split; [exact Hx2|]. apply (Hrows 1). cbn. lia.
Defined.

Lemma renderers_read_existing_columns_witness :
  (∃ rs s3,
     LineBuilder_draw (got_source LineBuilder line_example) = Some (rs, s3) ∧
     ∀ r, r ∈ rs → data_source r = _source s3) ∧
  (∃ rs s3,
     StepBuilder_draw (got_source StepBuilder step_example) = Some (rs, s3) ∧
     ∀ r, r ∈ rs → data_source r = _source s3).
Proof.
  split.
  - destruct (renderers_read_existing_columns
                (prepared line_example) (got_data LineBuilder line_example)
                (got_source LineBuilder line_example)) as [Hline _].
    destruct Hline as (rs & s3 & Hdraw & _ & Hall);
      [vm_compute; reflexivity..|].
    exists rs, s3. split; [exact Hdraw|]. intros r Hr.
    by destruct (Hall r Hr).
  - destruct (renderers_read_existing_columns
                (prepared step_example) (got_data StepBuilder step_example)
                (got_source StepBuilder step_example)) as [_ Hstep].
    destruct Hstep as (rs & s3 & Hdraw & _ & Hall);
      [vm_compute; reflexivity..|].
    exists rs, s3. split; [exact Hdraw|]. intros r Hr.
    by destruct (Hall r Hr).
Defined.

Lemma get_data_names_are_distinct_witness :
  NoDup (_attr (got_data StepBuilder step_example)) ∧
  length (_attr (got_data StepBuilder step_example))
  = size (_data (got_data StepBuilder step_example)).
Proof.
  destruct (get_data_names_are_distinct
              (prepared step_example) (got_data StepBuilder step_example))
    as (Hnodup & _ & Hsize).
  - apply (bool_decide_unpack _). vm_compute. exact I.
  - right. vm_compute. reflexivity.
  - split; [exact Hnodup|exact Hsize].
Defined.

Lemma two_builders_on_one_chart_witness :
  let s1 := created StepBuilder step_example empty_chart in
  let c1 := charted StepBuilder step_example empty_chart in
  let s2 := created LineBuilder line_positional c1 in
  let c2 := charted LineBuilder line_positional c1 in
  chart_legends c2 = chart_legends empty_chart ++ _legends s1 ++ _legends s2 ∧
  chart_x_range c2 = x_range s1 ∧
  chart_y_range c2 = y_range s1.
Proof.
  intros s1 c1 s2 c2.
  destruct (two_builders_on_one_chart
              StepBuilder LineBuilder step_example line_positional s1 s2
              empty_chart c1 c2)
    as (Hlegends & _ & Hx & Hy); [vm_compute; reflexivity..|].
  split; [exact Hlegends|]. split.
  - apply Hx; [reflexivity|]. eexists. vm_compute. reflexivity.
  - apply Hy; [reflexivity|]. eexists. vm_compute. reflexivity.
Defined.

Lemma create_and_build_chart_witness :
  let s := created StepBuilder step_example empty_chart in
  let chart := charted StepBuilder step_example empty_chart in
  chart_x_range chart = x_range s ∧
  chart_y_range chart = y_range s ∧
  chart_legends chart = _legends s.
Proof.
  intros s chart.
  destruct (create_and_build_chart
              StepBuilder example_values {["index" := PyStr "x"]} s chart)
    as (_ & Hx & Hy & Hlegends & _); [vm_compute; reflexivity|].
  split; [exact Hx|]. split; [exact Hy|exact Hlegends].
Defined.

Lemma Step_never_draws_its_index_column_witness :
  let s := created StepBuilder step_example empty_chart in
  index s = PyStr "x" ∧ ("x" ∉ _groups s) ∧ _data s !! "y1_x" = None.
Proof.
  intros s.
  destruct (Step_never_draws_its_index_column
              example_values "x" ∅ s
              (charted StepBuilder step_example empty_chart))
    as (Hindex & Hgroups & _ & Hy1 & _); [vm_compute; reflexivity|].
  split; [exact Hindex|]. split; [exact Hgroups|exact Hy1].
Defined.

Lemma create_keeps_the_adapted_input_witness :
  let s := created StepBuilder step_example empty_chart in
  _values_index s = Some [1; 2; 3]%Q ∧ index s = PyStr "x".
Proof.
  intros s.
  destruct (create_keeps_the_adapted_input
              step_example s empty_chart
              (charted StepBuilder step_example empty_chart))
    as (xs & Hadapt & Hxs & Hindex); [right; vm_compute; reflexivity|].
  split; [|exact Hindex]. vm_compute. reflexivity.
Defined.
